(** * Export contract of [export_model_template.py]

    A shallow embedding of the ONNX export template
    (candid-inference-impl/scripts/export_model_template.py) and the
    properties of the artifact bundle it writes: the ONNX model file, the
    feature metadata and the Platt-scaling calibration parameters.

    The script is a sequence of calls into numpy, xgboost, onnxmltools and
    scikit-learn.  What the script itself decides (the literals, the order
    of the stages, what is written where, how an exception travels) is
    transcribed below; what the libraries decide is an interface, a type
    class per library, whose laws are the parts of the library
    documentation the proofs rely on.

    The script is read twice.  The first part runs it where the console
    accepts every [print] and every write completes, so that only a
    library call can raise; it carries the properties of the data and
    of the content of the files.  The second part, module [Io], keeps
    each [print] of the script and lets [print], the writes and the
    reads of [a_] and [b_] fail; it carries the properties about when
    the script raises and what it then leaves on disk.  [main_agrees]
    relates the two: where nothing but a library call fails, the second
    reading is the first.  Paths are compared as strings; the three
    paths [main] writes to are three names in one directory. *)

From Stdlib Require Import ZArith List Bool Lia Reals Lra.
From Stdlib Require Import Floats.SpecFloat.
From stdpp Require Import base option list gmap strings.

Local Open Scope Z_scope.

(** ** Floating-point data

    numpy and Python floats are IEEE-754 numbers: [spec_float] with the
    precision and exponent range of the format.  [float64] is Python's
    [float] and numpy's default dtype, [float32] is [np.float32]. *)

Module Float.

Definition float64 := spec_float.
Definition float32 := spec_float.

Definition prec64 : Z := 53.
Definition emax64 : Z := 1024.
Definition prec32 : Z := 24.
Definition emax32 : Z := 128.

(** An integer read as a float64 ([float(z)], numpy's int64 -> float64). *)
Definition of_int (z : Z) : float64 := binary_normalize prec64 emax64 z 0 false.

(** A decimal literal [n / d] with [d] a power of ten, such as [0.5] =
    [decimal 5 10]: the float64 nearest to the quotient. *)
Definition decimal (n d : Z) : float64 :=
  SFdiv prec64 emax64 (of_int n) (of_int d).

Definition mul (x y : float64) : float64 := SFmul prec64 emax64 x y.
Definition add (x y : float64) : float64 := SFadd prec64 emax64 x y.
Definition sub (x y : float64) : float64 := SFsub prec64 emax64 x y.
Definition div (x y : float64) : float64 := SFdiv prec64 emax64 x y.
Definition ltb (x y : float64) : bool := SFltb x y.
Definition eqb (x y : float64) : bool := SFeqb x y.

(** [bool.astype(float)]. *)
Definition of_bool (b : bool) : float64 := if b then of_int 1 else of_int 0.

(** [x.astype(np.float32)]: rounding to the nearest float32. *)
Definition astype_float32 (x : float64) : float32 :=
  match x with
  | S754_finite s m e => binary_normalize prec32 emax32 (cond_Zopp s (Zpos m)) e s
  | _ => x
  end.

(** A float32 read back as a float64 (exact), as needed to compare it
    with a Python float. *)
Definition promote (x : float32) : float64 :=
  match x with
  | S754_finite s m e => binary_normalize prec64 emax64 (cond_Zopp s (Zpos m)) e s
  | _ => x
  end.

End Float.

Export Float.

(** ** Python values that reach [json.dump]

    A dict literal keeps its insertion order, so an object is an
    association list. *)

#[warnings="-register-all"]
Inductive json : Type :=
  | JInt (z : Z)
  | JFloat (x : float64)
  | JStr (s : string)
  | JList (items : list json)
  | JDict (fields : list (string * json)).

Fixpoint assoc {A : Type} (k : string) (kv : list (string * A)) : option A :=
  match kv with
  | [] => None
  | (k', v) :: rest => if decide (k = k') then Some v else assoc k rest
  end.

Definition dict_get (k : string) (j : json) : option json :=
  match j with
  | JDict fields => assoc k fields
  | _ => None
  end.

Definition as_list (j : json) : option (list json) :=
  match j with JList l => Some l | _ => None end.

Definition as_int (j : json) : option Z :=
  match j with JInt z => Some z | _ => None end.

Definition as_str (j : json) : option string :=
  match j with JStr s => Some s | _ => None end.

Definition as_float (j : json) : option float64 :=
  match j with JFloat x => Some x | _ => None end.

Definition as_dict (j : json) : option (list (string * json)) :=
  match j with JDict kv => Some kv | _ => None end.

(** *** Readers of the feature metadata wire format *)

Definition features_of (md : json) : option (list json) :=
  dict_get "features" md ≫= as_list.

Definition feature_index (f : json) : option Z := dict_get "index" f ≫= as_int.
Definition feature_type (f : json) : option string := dict_get "type" f ≫= as_str.
Definition feature_name (f : json) : option string := dict_get "name" f ≫= as_str.

(** The category codes of a feature: [None] when it has no mapping or a
    code is not a float. *)
Definition mapping_entry (kv : string * json) : option (string * float64) :=
  c ← as_float kv.2; Some (kv.1, c).

Definition feature_mapping (f : json) : option (list (string * float64)) :=
  m ← dict_get "mapping" f; kv ← as_dict m; mapM mapping_entry kv.

Definition schema_indices (md : json) : option (list Z) :=
  features_of md ≫= mapM feature_index.

Definition feature_count (md : json) : option nat :=
  length <$> features_of md.

(** ** The metadata literal of [export_feature_metadata] (lines 120-162) *)

Definition metadata : json :=
  JDict [
    ("features", JList [
      JDict [("name", JStr "claim_amount");
             ("type", JStr "NUMERIC");
             ("index", JInt 0)];
      JDict [("name", JStr "patient_age");
             ("type", JStr "NUMERIC");
             ("index", JInt 1)];
      JDict [("name", JStr "procedure_category");
             ("type", JStr "CATEGORICAL");
             ("index", JInt 2);
             ("mapping", JDict [
                ("SURGERY", JFloat (decimal 0 10));
                ("DIAGNOSTIC", JFloat (decimal 10 10));
                ("THERAPY", JFloat (decimal 20 10));
                ("EMERGENCY", JFloat (decimal 30 10));
                ("UNKNOWN", JFloat (decimal 40 10))])];
      JDict [("name", JStr "provider_state");
             ("type", JStr "CATEGORICAL");
             ("index", JInt 3);
             ("mapping", JDict [
                ("CA", JFloat (decimal 0 10));
                ("NY", JFloat (decimal 10 10));
                ("TX", JFloat (decimal 20 10));
                ("FL", JFloat (decimal 30 10));
                ("UNKNOWN", JFloat (decimal 40 10))])];
      JDict [("name", JStr "prior_denials");
             ("type", JStr "NUMERIC");
             ("index", JInt 4)]
    ])
  ].

(** The feature that describes input column [col], and its fallback code. *)
Definition feature_at (md : json) (col : nat) : option json :=
  fs ← features_of md;
  find (λ f, bool_decide (feature_index f = Some (Z.of_nat col))) fs.

(** The fallback code of a mapping and the codes of its other labels. *)
Definition unknown_code (m : list (string * float64)) : option float64 :=
  assoc "UNKNOWN" m.

Definition known_codes (m : list (string * float64)) : list float64 :=
  (filter (λ kv : string * float64, kv.1 ≠ "UNKNOWN") m).*2.

Definition unknown_code_at (md : json) (col : nat) : option float64 :=
  f ← feature_at md col; m ← feature_mapping f; unknown_code m.

(** ** Exceptions and library results

    A Python exception is named by its class; a library call either
    returns a value or raises. *)

Definition exn := string.

Inductive result (A : Type) : Type :=
  | Ok (a : A)
  | Raise (e : exn).

Arguments Ok {A} a.
Arguments Raise {A} e.

(** A two-dimensional array, row by row. *)
Definition ndarray := list (list spec_float).

(** [np.column_stack] of one-dimensional arrays: row [i] collects entry
    [i] of every column; columns of different lengths (or none at all)
    raise [ValueError]. *)
Definition column_stack (cols : list (list float64)) : result ndarray :=
  match cols with
  | [] => Raise "ValueError"
  | c0 :: _ =>
      if forallb (λ c, Nat.eqb (length c) (length c0)) cols
      then Ok ((λ i, (λ c, nth i c (S754_zero false)) <$> cols) <$> seq 0 (length c0))
      else Raise "ValueError"
  end.

(** [xs[0]]. *)
Definition index0 {A : Type} (xs : list A) : result A :=
  match xs with
  | x :: _ => Ok x
  | [] => Raise "IndexError"
  end.

(** [FloatTensorType(shape)]; [None] is a dimension of any size. *)
Inductive tensor_type : Type :=
  | FloatTensorType (shape : list (option Z)).

(** The width a list of graph inputs declares: the second dimension of
    its single float tensor. *)
Definition declared_width (tys : list (string * tensor_type)) : option Z :=
  match tys with
  | [(_, FloatTensorType [_; Some n])] => Some n
  | _ => None
  end.

(** The keyword arguments of [xgb.XGBClassifier]. *)
Record xgb_params : Type := {
  n_estimators : Z;
  max_depth : Z;
  learning_rate : float64;
  random_state : Z;
  use_label_encoder : bool;
  eval_metric : string
}.

(** ** The libraries the script calls *)

(** numpy's process-wide generator, as explicit state. *)
Class NumpyRandom : Type := {
  RandomState : Type;
  np_seed : Z → RandomState;
  np_uniform : float64 → float64 → nat → RandomState → list float64 * RandomState;
  np_randint : Z → Z → nat → RandomState → list Z * RandomState;
  np_random : nat → RandomState → list float64 * RandomState;
  (** the [size] argument is the length of the array returned *)
  np_uniform_length : ∀ lo hi n st, length (np_uniform lo hi n st).1 = n;
  np_randint_length : ∀ lo hi n st, length (np_randint lo hi n st).1 = n;
  np_random_length : ∀ n st, length (np_random n st).1 = n;
  (** [randint(low, high)] draws from the half-open interval [low, high) *)
  np_randint_range : ∀ lo hi n st,
    lo < hi → Forall (λ x, lo ≤ x < hi) (np_randint lo hi n st).1
}.

(** xgboost's scikit-learn wrapper: fitting and [model.score]. *)
Class XGBoost : Type := {
  XGBClassifier : Type;
  xgb_fit : xgb_params → ndarray → list Z → result XGBClassifier;
  xgb_score : XGBClassifier → ndarray → list Z → result float64;
  (** the number of columns the classifier was fitted on *)
  n_features_in_ : XGBClassifier → nat;
  xgb_fit_width : ∀ p X y m,
    xgb_fit p X y = Ok m → Forall (λ row, length row = n_features_in_ m) X
}.

(** onnxmltools: the converter declares the graph inputs it is given. *)
Class Onnxmltools {XGB : XGBoost} : Type := {
  ModelProto : Type;
  graph_input : ModelProto → list (string * tensor_type);
  convert_xgboost :
    XGBClassifier → list (string * tensor_type) → Z → result ModelProto;
  convert_xgboost_input : ∀ m tys opset onx,
    convert_xgboost m tys opset = Ok onx → graph_input onx = tys
}.

(** scikit-learn: the split and the prefit sigmoid calibration. *)
Class Sklearn {XGB : XGBoost} : Type := {
  train_test_split :
    ndarray → list Z → float64 → Z →
    result (ndarray * ndarray * list Z * list Z);
  CalibratedClassifierCV : Type;
  Calibrator : Type;
  calibrated_fit :
    XGBClassifier → string → string → ndarray → list Z →
    result CalibratedClassifierCV;
  calibrated_classifiers_ : CalibratedClassifierCV → list Calibrator;
  a_ : Calibrator → float64;
  b_ : Calibrator → float64;
  (** a split hands out rows and labels of its input, nothing else *)
  train_test_split_parts : ∀ X y test_size rs X1 X2 y1 y2,
    train_test_split X y test_size rs = Ok (X1, X2, y1, y2) →
    X1 ⊆ X ∧ X2 ⊆ X ∧ y1 ⊆ y ∧ y2 ⊆ y
}.

(** ** The script *)

Section Script.

Context {NP : NumpyRandom} {XGB : XGBoost} {ONX : Onnxmltools} {SK : Sklearn}.

(** What a file of the working directory holds.  A JSON file is kept
    as the value handed to [json.dump]. *)
Inductive file : Type :=
  | OnnxFile (m : ModelProto)
  | JsonFile (j : json).

(** The state a run touches: numpy's global generator and the files. *)
Record World : Type := {
  rng : RandomState;
  files : gmap string file
}.

(** State and exceptions. *)
Definition Py (A : Type) : Type := World → result A * World.

#[export] Instance Py_ret : MRet Py := λ A a w, (Ok a, w).

#[export] Instance Py_bind : MBind Py := λ A B k m w,
  match m w with
  | (Ok a, w') => k a w'
  | (Raise e, w') => (Raise e, w')
  end.

(** [returns m w Q]: run from [w], [m] returns normally, with a value
    and a final state that satisfy [Q]. *)
Definition returns {A : Type} (m : Py A) (w : World) (Q : A → World → Prop) : Prop :=
  match m w with
  | (Ok a, w') => Q a w'
  | (Raise _, _) => False
  end.

(** A library call: its exception, if any, propagates. *)
Definition call {A : Type} (r : result A) : Py A := λ w, (r, w).

(** [np.random.seed(s)]. *)
Definition seed (s : Z) : Py () := λ w,
  (Ok (), {| rng := np_seed s; files := files w |}).

(** A draw from the global generator. *)
Definition draw {A : Type} (f : RandomState → A * RandomState) : Py A := λ w,
  let '(a, st) := f (rng w) in (Ok a, {| rng := st; files := files w |}).

(** [with open(path, 'w') as f: json.dump(...)] and
    [onnxmltools.utils.save_model]: the file is created or replaced.
    The working directory is taken to be writable, so the write itself
    does not raise; [Io.write] is the write that can fail. *)
Definition write_file (path : string) (content : file) : Py () := λ w,
  (Ok (), {| rng := rng w; files := <[path := content]> (files w) |}).

Definition n_samples : nat := 1000.

(** [denial_prob], element by element (line 58). *)
Definition denial_prob_of (claim_amount : float64) (prior_denial : Z) : float64 :=
  add (mul (of_bool (ltb (of_int 20000) claim_amount)) (decimal 5 10))
      (mul (of_bool (bool_decide (2 < prior_denial))) (decimal 3 10)).

(** The feature matrix of lines 49-55 and 61, from its five columns. *)
Definition sample_rows
    (claim_amounts : list float64)
    (patient_ages procedure_categories provider_states prior_denials : list Z)
    : result ndarray :=
  match column_stack [
          claim_amounts;
          of_int <$> patient_ages;
          of_int <$> procedure_categories;
          of_int <$> provider_states;
          of_int <$> prior_denials ]
  with
  | Ok X => Ok (fmap (M := list) astype_float32 <$> X)
  | Raise e => Raise e
  end.

(** The labels of lines 58-59. *)
Definition sample_labels
    (claim_amounts : list float64) (prior_denials : list Z) (u : list float64)
    : list Z :=
  let denial_prob := zip_with denial_prob_of claim_amounts prior_denials in
  zip_with (λ ui pi, Z.b2z (ltb ui pi)) u denial_prob.

(** Lines 31-61. *)
Definition create_sample_data : Py (ndarray * list Z) :=
  seed 42;;
  claim_amounts ← draw (np_uniform (of_int 1000) (of_int 50000) n_samples);
  patient_ages ← draw (np_randint 18 90 n_samples);
  procedure_categories ← draw (np_randint 0 4 n_samples);
  provider_states ← draw (np_randint 0 4 n_samples);
  prior_denials ← draw (np_randint 0 5 n_samples);
  X ← call (sample_rows claim_amounts patient_ages procedure_categories
                        provider_states prior_denials);
  u ← draw (np_random n_samples);
  let y := sample_labels claim_amounts prior_denials u in
  mret (X, y).

(** Lines 64-79. *)
Definition train_model (X_train : ndarray) (y_train : list Z) : Py XGBClassifier :=
  call (xgb_fit {| n_estimators := 10;
                   max_depth := 3;
                   learning_rate := decimal 1 10;
                   random_state := 42;
                   use_label_encoder := false;
                   eval_metric := "logloss" |} X_train y_train).

Definition onnx_path : string := "claim_denial_model.onnx".
Definition metadata_path : string := "feature_metadata.json".
Definition calibration_path : string := "calibration_params.json".

(** The declared input of the exported graph (line 95). *)
Definition initial_type : list (string * tensor_type) :=
  [("float_input", FloatTensorType [None; Some 5])].

(** Lines 82-108, where the save and the [print] of line 106 do not
    fail; [Io.export_to_onnx] has both. *)
Definition export_to_onnx (model : XGBClassifier) (output_path : string) : Py string :=
  onnx_model ← call (convert_xgboost model initial_type 12);
  write_file output_path (OnnxFile onnx_model);;
  mret output_path.

(** Lines 111-168, where the write and the [print] of line 167 do not
    fail; [Io.export_feature_metadata] has both. *)
Definition export_feature_metadata (output_path : string) : Py string :=
  write_file output_path (JsonFile metadata);;
  mret output_path.

(** The dict of lines 196-202. *)
Definition calibration_params (a b : float64) : json :=
  JDict [("type", JStr "PLATT_SCALING");
         ("parameters", JDict [("a", JFloat a); ("b", JFloat b)])].

(** Lines 171-210, where the reads of [a_] and [b_], the write and the
    [print]s of lines 207-208 do not fail; [Io.calibrate_and_export]
    has them all. *)
Definition calibrate_and_export
    (model : XGBClassifier) (X_val : ndarray) (y_val : list Z)
    (output_path : string) : Py string :=
  calibrated ← call (calibrated_fit model "sigmoid" "prefit" X_val y_val);
  calibrator ← call (index0 (calibrated_classifiers_ calibrated));
  write_file output_path
    (JsonFile (calibration_params (a_ calibrator) (b_ calibrator)));;
  mret output_path.

(** Lines 213-267, where no [print] fails; [Io.main] has every
    [print], in order. *)
Definition main : Py () :=
  '(X, y) ← create_sample_data;
  '(X_train, X_temp, y_train, y_temp) ← call (train_test_split X y (decimal 3 10) 42);
  '(X_val, X_test, y_val, y_test) ← call (train_test_split X_temp y_temp (decimal 5 10) 42);
  model ← train_model X_train y_train;
  train_acc ← call (xgb_score model X_train y_train);
  test_acc ← call (xgb_score model X_test y_test);
  export_to_onnx model onnx_path;;
  export_feature_metadata metadata_path;;
  calibrate_and_export model X_val y_val calibration_path;;
  mret ().

End Script.

(** ** Reference instances of the libraries

    Small executable stand-ins, used to run the script on concrete
    inputs: a linear congruential generator for numpy, a classifier that
    only remembers the width it was fitted on, a converter that records
    what it was asked for, and an unshuffled split. *)

Module Reference.

Definition lcg_next (s : Z) : Z := (1103515245 * s + 12345) mod 2147483648.

Fixpoint lcg_draws (n : nat) (s : Z) : list Z * Z :=
  match n with
  | O => ([], s)
  | S n' =>
      let s' := lcg_next s in
      let '(rest, s'') := lcg_draws n' s' in
      (s' `div` 65536 :: rest, s'')
  end.

(** A raw draw scaled to the unit interval. *)
Definition unit_of (r : Z) : float64 := div (of_int r) (of_int 32768).

Definition lcg_uniform (lo hi : float64) (n : nat) (s : Z) : list float64 * Z :=
  let '(raw, s') := lcg_draws n s in
  ((λ r, add lo (mul (sub hi lo) (unit_of r))) <$> raw, s').

Definition lcg_randint (lo hi : Z) (n : nat) (s : Z) : list Z * Z :=
  let '(raw, s') := lcg_draws n s in
  ((λ r, lo + r `mod` (hi - lo)) <$> raw, s').

Definition lcg_random (n : nat) (s : Z) : list float64 * Z :=
  let '(raw, s') := lcg_draws n s in (unit_of <$> raw, s').

Lemma lcg_draws_length n s : length (lcg_draws n s).1 = n.
Proof.
  revert s; induction n as [|n IH]; intros s; simpl; [done|].
  specialize (IH (lcg_next s)).
  destruct (lcg_draws n (lcg_next s)) as [rest s'']; simpl in *; lia.
Qed.

Lemma lcg_uniform_length lo hi n s : length (lcg_uniform lo hi n s).1 = n.
Proof.
  unfold lcg_uniform. pose proof (lcg_draws_length n s) as Hl.
  destruct (lcg_draws n s); simpl in *. by rewrite length_fmap.
Qed.

Lemma lcg_randint_length lo hi n s : length (lcg_randint lo hi n s).1 = n.
Proof.
  unfold lcg_randint. pose proof (lcg_draws_length n s) as Hl.
  destruct (lcg_draws n s); simpl in *. by rewrite length_fmap.
Qed.

Lemma lcg_random_length n s : length (lcg_random n s).1 = n.
Proof.
  unfold lcg_random. pose proof (lcg_draws_length n s) as Hl.
  destruct (lcg_draws n s); simpl in *. by rewrite length_fmap.
Qed.

Lemma lcg_randint_range lo hi n s :
  lo < hi → Forall (λ x, lo ≤ x < hi) (lcg_randint lo hi n s).1.
Proof.
  intros Hlt. unfold lcg_randint. destruct (lcg_draws n s) as [raw s']; simpl.
  apply Forall_fmap, Forall_forall; intros r _; simpl.
  pose proof (Z.mod_pos_bound r (hi - lo)); lia.
Qed.

#[export] Instance lcg : NumpyRandom := {|
  RandomState := Z;
  np_seed := λ s, s;
  np_uniform := lcg_uniform;
  np_randint := lcg_randint;
  np_random := lcg_random;
  np_uniform_length := lcg_uniform_length;
  np_randint_length := lcg_randint_length;
  np_random_length := lcg_random_length;
  np_randint_range := lcg_randint_range
|}.

(** A fitted classifier reduced to the number of columns it saw. *)
Definition width_fit (p : xgb_params) (X : ndarray) (y : list Z) : result nat :=
  match X with
  | [] => Raise "ValueError"
  | row :: _ =>
      if forallb (λ r, Nat.eqb (length r) (length row)) X
      then Ok (length row) else Raise "ValueError"
  end.

Lemma width_fit_width p X y m :
  width_fit p X y = Ok m → Forall (λ row, length row = m) X.
Proof.
  unfold width_fit. destruct X as [|row rest]; [done|].
  destruct (forallb _ _) eqn:Hall; [|done].
  intros [= <-]. apply Forall_forall; intros r Hr.
  rewrite forallb_forall in Hall.
  apply Nat.eqb_eq, Hall, list_elem_of_In, Hr.
Qed.

#[export] Instance width_only : XGBoost := {|
  XGBClassifier := nat;
  xgb_fit := width_fit;
  xgb_score := λ _ _ _, Ok (decimal 5 10);
  n_features_in_ := λ m, m;
  xgb_fit_width := width_fit_width
|}.

(** A converted graph reduced to the request that produced it.  Like
    onnxmltools, the converter does not compare the classifier's width
    with the declared input. *)
Record proto : Type := {
  proto_source : nat;
  proto_input : list (string * tensor_type);
  proto_opset : Z
}.

Definition record_request (m : nat) (tys : list (string * tensor_type)) (opset : Z)
    : result proto :=
  Ok {| proto_source := m; proto_input := tys; proto_opset := opset |}.

Lemma record_request_input m tys opset onx :
  record_request m tys opset = Ok onx → proto_input onx = tys.
Proof. by intros [= <-]. Qed.

#[export] Instance recording : Onnxmltools := {|
  ModelProto := proto;
  graph_input := proto_input;
  convert_xgboost := record_request;
  convert_xgboost_input := record_request_input
|}.

(** [ceil] of a non-negative float. *)
Definition ceil (x : float64) : Z :=
  match x with
  | S754_finite false m e => - ((- (Z.pos m * 2 ^ (e + 1100))) `div` 2 ^ 1100)
  | _ => 0
  end.

(** The last [ceil(test_size * n)] rows are the test part. *)
Definition tail_split (X : ndarray) (y : list Z) (test_size : float64) (rs : Z)
    : result (ndarray * ndarray * list Z * list Z) :=
  let n := length X in
  let n_test := Z.to_nat (ceil (mul test_size (of_int (Z.of_nat n)))) in
  if bool_decide (n_test < n)%nat && bool_decide (0 < n_test)%nat
  then Ok (take (n - n_test) X, drop (n - n_test) X,
           take (n - n_test) y, drop (n - n_test) y)
  else Raise "ValueError".

Lemma tail_split_parts X y test_size rs X1 X2 y1 y2 :
  tail_split X y test_size rs = Ok (X1, X2, y1, y2) →
  X1 ⊆ X ∧ X2 ⊆ X ∧ y1 ⊆ y ∧ y2 ⊆ y.
Proof.
  unfold tail_split. case_match; [|done]. intros [= <- <- <- <-].
  repeat split.
  - apply sublist_subseteq, sublist_take.
  - apply sublist_subseteq, sublist_drop.
  - apply sublist_subseteq, sublist_take.
  - apply sublist_subseteq, sublist_drop.
Qed.

(** A sigmoid fit that accepts any labels, single-class ones included,
    as scikit-learn's Platt fit does with its smoothed targets. *)
Definition count_label (l : Z) (y : list Z) : Z :=
  Z.of_nat (length (filter (λ v, v = l) y)).

Definition smoothed_fit (m : nat) (method cv : string) (X : ndarray) (y : list Z)
    : result (list (float64 * float64)) :=
  if forallb (λ r, Nat.eqb (length r) m) X
  then Ok [(of_int (-1),
            div (of_int (count_label 0 y + 1)) (of_int (count_label 1 y + 2)))]
  else Raise "ValueError".

#[export] Instance prefit_ok : Sklearn := {|
  train_test_split := tail_split;
  CalibratedClassifierCV := list (float64 * float64);
  Calibrator := float64 * float64;
  calibrated_fit := smoothed_fit;
  calibrated_classifiers_ := λ c, c;
  a_ := fst;
  b_ := snd;
  train_test_split_parts := tail_split_parts
|}.

(** A scikit-learn release that no longer accepts [cv='prefit']. *)
Definition prefit_removed : Sklearn := {|
  train_test_split := tail_split;
  CalibratedClassifierCV := list (float64 * float64);
  Calibrator := float64 * float64;
  calibrated_fit := λ m method cv X y,
    if decide (cv = "prefit") then Raise "InvalidParameterError"
    else smoothed_fit m method cv X y;
  calibrated_classifiers_ := λ c, c;
  a_ := fst;
  b_ := snd;
  train_test_split_parts := tail_split_parts
|}.

(** The empty working directory before a run. *)
Definition fresh : World := {| rng := 0; files := ∅ |}.

End Reference.


(** * Properties *)

(** ** Sample data *)

Definition binary_label (l : Z) : Prop := l = 0 ∨ l = 1.

(** The float32 cells a categorical column can hold: the codes 0..3. *)
Definition category_cell (v : float32) : Prop :=
  ∃ z, 0 ≤ z < 4 ∧ v = astype_float32 (of_int z).

Lemma column_stack_five (c0 c1 c2 c3 c4 : list float64) n :
  length c0 = n → length c1 = n → length c2 = n → length c3 = n → length c4 = n →
  column_stack [c0; c1; c2; c3; c4] =
    Ok ((λ i, (λ c, nth i c (S754_zero false)) <$> [c0; c1; c2; c3; c4]) <$> seq 0 n).
Proof.
  intros H0 H1 H2 H3 H4. unfold column_stack.
  cbn [forallb]. rewrite H0, H1, H2, H3, H4, Nat.eqb_refl. reflexivity.
Qed.

Lemma nth_fmap_of_int (l : list Z) i :
  (i < length l)%nat → nth i (of_int <$> l) (S754_zero false) = of_int (nth i l 0).
Proof.
  revert i; induction l as [|x l IH]; intros [|i] Hi; simpl in *; try lia; [done|].
  apply IH; lia.
Qed.

Lemma Forall_nth_lt {A} (P : A → Prop) (l : list A) d i :
  Forall P l → (i < length l)%nat → P (nth i l d).
Proof.
  intros HP; revert i; induction HP as [|x l Hx _ IH]; intros [|i] Hi;
    simpl in *; try lia; [done|]. apply IH; lia.
Qed.

(** Every row of the matrix has five cells, and cells 2 and 3 are
    category codes when the categorical columns are drawn from 0..3. *)
Lemma sample_rows_spec ca pa pc ps pd n :
  length ca = n → length pa = n → length pc = n → length ps = n → length pd = n →
  Forall (λ x, 0 ≤ x < 4) pc → Forall (λ x, 0 ≤ x < 4) ps →
  ∃ X, sample_rows ca pa pc ps pd = Ok X ∧ length X = n ∧
       Forall (λ row, length row = 5%nat ∧
                      (∃ v, row !! 2%nat = Some v ∧ category_cell v) ∧
                      (∃ v, row !! 3%nat = Some v ∧ category_cell v)) X.
Proof.
  intros Hca Hpa Hpc Hps Hpd Rpc Rps. unfold sample_rows.
  rewrite (column_stack_five _ _ _ _ _ n) by (rewrite ?length_fmap; done).
  eexists; split; [reflexivity|]. split.
  - by rewrite !length_fmap, length_seq.
  - apply Forall_fmap, Forall_fmap, Forall_forall.
    intros i Hi%elem_of_seq. simpl.
    split; [done|]. split.
    + eexists; split; [reflexivity|].
      exists (nth i pc 0). split.
      * apply (Forall_nth_lt (λ x, 0 ≤ x < 4)); [done|lia].
      * by rewrite nth_fmap_of_int by lia.
    + eexists; split; [reflexivity|].
      exists (nth i ps 0). split.
      * apply (Forall_nth_lt (λ x, 0 ≤ x < 4)); [done|lia].
      * by rewrite nth_fmap_of_int by lia.
Qed.

Lemma sample_labels_binary ca pd u : Forall binary_label (sample_labels ca pd u).
Proof.
  unfold sample_labels.
  generalize (zip_with denial_prob_of ca pd) as p.
  induction u as [|ui u IH]; intros [|pi p]; simpl; try constructor.
  - unfold binary_label. destruct (ltb ui pi); simpl; lia.
  - apply IH.
Qed.

Lemma sample_labels_length ca pd u n :
  length ca = n → length pd = n → length u = n →
  length (sample_labels ca pd u) = n.
Proof.
  intros Hca Hpd Hu. unfold sample_labels.
  rewrite !length_zip_with. lia.
Qed.

Section SampleData.

Context {NP : NumpyRandom} {XGB : XGBoost} {ONX : Onnxmltools} {SK : Sklearn}.

(** *** How the script's primitives run *)

Lemma bind_seed {B} (s : Z) (k : () → Py B) (w : World) :
  (seed s ≫= k) w = k () {| rng := np_seed s; files := files w |}.
Proof. reflexivity. Qed.

Lemma bind_draw {A B} (f : RandomState → A * RandomState) (k : A → Py B) (w : World) :
  (draw f ≫= k) w =
    k (f (rng w)).1 {| rng := (f (rng w)).2; files := files w |}.
Proof.
  unfold mbind, Py_bind, draw. by destruct (f (rng w)).
Qed.

Lemma bind_call {A B} (r : result A) (k : A → Py B) (w : World) :
  (call r ≫= k) w =
    match r with Ok a => k a w | Raise e => (Raise e, w) end.
Proof. unfold mbind, Py_bind, call. by destruct r. Qed.

Lemma bind_write {B} (path : string) (c : file) (k : () → Py B) (w : World) :
  (write_file path c ≫= k) w =
    k () {| rng := rng w; files := <[path := c]> (files w) |}.
Proof. reflexivity. Qed.

Lemma run_ret {A} (a : A) (w : World) : (mret a : Py A) w = (Ok a, w).
Proof. reflexivity. Qed.

(** [create_sample_data] returns; it leaves the files alone; its
    matrix and labels are built from draws of the documented ranges. *)
Lemma create_sample_data_run (w : World) :
  ∃ ca pa pc ps pd u X st,
    length ca = n_samples ∧ length pa = n_samples ∧ length pc = n_samples ∧
    length ps = n_samples ∧ length pd = n_samples ∧ length u = n_samples ∧
    Forall (λ x, 0 ≤ x < 4) pc ∧ Forall (λ x, 0 ≤ x < 4) ps ∧
    sample_rows ca pa pc ps pd = Ok X ∧
    create_sample_data w =
      (Ok (X, sample_labels ca pd u), {| rng := st; files := files w |}).
Proof.
  unfold create_sample_data.
  rewrite bind_seed, !bind_draw, bind_call; cbn [rng files].
  set (d1 := np_uniform (of_int 1000) (of_int 50000) n_samples (np_seed 42)).
  set (d2 := np_randint 18 90 n_samples d1.2).
  set (d3 := np_randint 0 4 n_samples d2.2).
  set (d4 := np_randint 0 4 n_samples d3.2).
  set (d5 := np_randint 0 5 n_samples d4.2).
  destruct (sample_rows_spec d1.1 d2.1 d3.1 d4.1 d5.1 n_samples) as (X & HX & _);
    try apply np_uniform_length; try apply np_randint_length;
    try (apply np_randint_range; lia).
  rewrite HX, bind_draw, run_ret; cbn [rng files].
  set (d6 := np_random n_samples d5.2).
  exists d1.1, d2.1, d3.1, d4.1, d5.1, d6.1, X, d6.2.
  repeat split; try apply np_uniform_length; try apply np_randint_length;
    try apply np_random_length; try (apply np_randint_range; lia); done.
Qed.

End SampleData.

Lemma category_cell_not_unknown v code :
  category_cell v → code = decimal 40 10 →
  eqb (promote v) code = false ∧ promote v ≠ code.
Proof.
  intros (z & Hz & ->) ->.
  assert (z = 0 ∨ z = 1 ∨ z = 2 ∨ z = 3) as [-> | [-> | [-> | ->] ] ] by lia;
    (split; [by vm_compute | by vm_compute]).
Qed.

Section SampleDataClaims.

Context {NP : NumpyRandom} {XGB : XGBoost} {ONX : Onnxmltools} {SK : Sklearn}.

(** C9.  [create_sample_data] returns, and in every row of the matrix
    it returns the cells of the two categorical columns (indices 2 and
    3) are codes of the four known categories 0..3, so they differ from
    the UNKNOWN fallback code that the metadata declares for that
    column (4.0). *)
Theorem unknown_code_never_sampled (w : World) :
  returns create_sample_data w (λ Xy _,
    Forall (λ row,
      Forall (λ col,
        ∃ v code,
          row !! col = Some v ∧ category_cell v ∧
          unknown_code_at metadata col = Some code ∧
          eqb (promote v) code = false ∧ promote v ≠ code)
        [2%nat; 3%nat]) Xy.1).
Proof.
  unfold returns.
  destruct (create_sample_data_run w)
    as (ca & pa & pc & ps & pd & u & X & st & ? & ? & ? & ? & ? & ? & ? & ? & HX & ->).
  cbn [fst].
  destruct (sample_rows_spec ca pa pc ps pd n_samples) as (X' & HX' & _ & Hrows);
    try done.
  assert (X' = X) as -> by congruence.
  eapply Forall_impl; [exact Hrows|].
  intros row (_ & (v2 & Hv2 & Hc2) & (v3 & Hv3 & Hc3)).
  repeat constructor.
  - exists v2, (decimal 40 10).
    destruct (category_cell_not_unknown v2 _ Hc2 eq_refl). by repeat split.
  - exists v3, (decimal 40 10).
    destruct (category_cell_not_unknown v3 _ Hc3 eq_refl). by repeat split.
Qed.

(** C10.  [create_sample_data] returns, every label of the vector [y]
    it returns is 0 or 1, and so is every label of the validation part
    that [main] cuts out of [y] with its two splits and hands to the
    calibration fit. *)
Theorem sample_labels_are_binary (w : World) :
  returns create_sample_data w (λ Xy _,
    length Xy.2 = n_samples ∧
    Forall binary_label Xy.2 ∧
    match train_test_split Xy.1 Xy.2 (decimal 3 10) 42 with
    | Ok (_, X_temp, _, y_temp) =>
        match train_test_split X_temp y_temp (decimal 5 10) 42 with
        | Ok (_, _, y_val, _) => Forall binary_label y_val
        | Raise _ => True
        end
    | Raise _ => True
    end).
Proof.
  unfold returns.
  destruct (create_sample_data_run w)
    as (ca & pa & pc & ps & pd & u & X & st & ? & ? & ? & ? & ? & ? & ? & ? & HX & ->).
  cbn [fst snd].
  pose proof (sample_labels_binary ca pd u) as Hy.
  split; [by apply sample_labels_length|]. split; [done|].
  destruct (train_test_split X _ _ _) as [[[[X1 X2] y1] y2]|] eqn:E1; [|done].
  destruct (train_test_split X2 _ _ _) as [[[[X3 X4] y3] y4]|] eqn:E2; [|done].
  apply train_test_split_parts in E1 as (_ & _ & _ & Hy2).
  apply train_test_split_parts in E2 as (_ & _ & Hy3 & _).
  rewrite Forall_forall in Hy |- *. intros l Hl. apply Hy, Hy2, Hy3, Hl.
Qed.

End SampleDataClaims.

(** ** Feature metadata *)

Section MetadataClaims.

Context {NP : NumpyRandom} {XGB : XGBoost} {ONX : Onnxmltools} {SK : Sklearn}.

Lemma export_feature_metadata_run (path : string) (w : World) :
  export_feature_metadata path w =
    (Ok path, {| rng := rng w; files := <[path := JsonFile metadata]> (files w) |}).
Proof. reflexivity. Qed.

(** C4.  The metadata that [export_feature_metadata] writes has five
    features whose [index] values are a permutation of 0..4: no
    duplicates, and each of 0, 1, 2, 3, 4 occurs exactly once. *)
Theorem schema_indices_cover (path : string) (w : World) :
  returns (export_feature_metadata path) w (λ _ w',
    ∃ md idx,
      files w' !! path = Some (JsonFile md) ∧
      feature_count md = Some 5%nat ∧
      schema_indices md = Some idx ∧
      idx ≡ₚ Z.of_nat <$> seq 0 5 ∧
      NoDup idx ∧
      Forall (λ i, count_occ Z.eq_dec idx i = 1%nat) (Z.of_nat <$> seq 0 5)).
Proof.
  unfold returns. rewrite export_feature_metadata_run. cbn [files].
  exists metadata, [0; 1; 2; 3; 4].
  split; [apply lookup_insert_eq|].
  split; [reflexivity|]. split; [reflexivity|].
  split; [reflexivity|]. split.
  - apply (bool_decide_unpack _). by vm_compute.
  - repeat constructor.
Qed.

(** C5.  In the metadata that [export_feature_metadata] writes, every
    CATEGORICAL feature has a mapping with an UNKNOWN entry, and the
    code of that entry differs from the code of every other label of
    the same mapping. *)
Theorem unknown_fallback_is_unique (path : string) (w : World) :
  returns (export_feature_metadata path) w (λ _ w',
    ∃ md fs,
      files w' !! path = Some (JsonFile md) ∧
      features_of md = Some fs ∧
      Forall (λ f,
        feature_type f = Some "CATEGORICAL" →
        ∃ m code,
          feature_mapping f = Some m ∧
          unknown_code m = Some code ∧
          Forall (λ c, eqb c code = false ∧ c ≠ code) (known_codes m)) fs).
Proof.
  unfold returns. rewrite export_feature_metadata_run. cbn [files].
  eexists metadata, _.
  split; [apply lookup_insert_eq|]. split; [reflexivity|].
  repeat constructor; intros Hty; try (by vm_compute in Hty);
    (eexists _, _; split; [reflexivity|]; split; [reflexivity|]);
    repeat constructor; by vm_compute.
Qed.

(** C8.  In the metadata that [export_feature_metadata] writes, the
    features list has five elements and the element at position [i]
    carries [index = i], for every [i] in 0..4. *)
Theorem features_listed_in_index_order (path : string) (w : World) :
  returns (export_feature_metadata path) w (λ _ w',
    ∃ md fs,
      files w' !! path = Some (JsonFile md) ∧
      features_of md = Some fs ∧
      length fs = 5%nat ∧
      Forall (λ i, ∃ f, fs !! i = Some f ∧ feature_index f = Some (Z.of_nat i))
             (seq 0 5)).
Proof.
  unfold returns. rewrite export_feature_metadata_run. cbn [files].
  eexists metadata, _.
  split; [apply lookup_insert_eq|]. split; [reflexivity|].
  split; [reflexivity|].
  repeat constructor; eexists; split; reflexivity.
Qed.

End MetadataClaims.

(** ** Export, calibration and the pipeline *)

Section PipelineClaims.

Context {NP : NumpyRandom} {XGB : XGBoost} {ONX : Onnxmltools} {SK : Sklearn}.

Lemma bind_run {A B} (m : Py A) (k : A → Py B) (w : World) :
  (m ≫= k) w =
    match m w with
    | (Ok a, w') => k a w'
    | (Raise e, w') => (Raise e, w')
    end.
Proof. reflexivity. Qed.

Lemma export_to_onnx_run (model : XGBClassifier) (path : string) (w : World) :
  export_to_onnx model path w =
    match convert_xgboost model initial_type 12 with
    | Ok onx =>
        (Ok path, {| rng := rng w; files := <[path := OnnxFile onx]> (files w) |})
    | Raise e => (Raise e, w)
    end.
Proof.
  unfold export_to_onnx. rewrite bind_call.
  by destruct (convert_xgboost model initial_type 12).
Qed.

Lemma calibrate_and_export_run
    (model : XGBClassifier) (X_val : ndarray) (y_val : list Z)
    (path : string) (w : World) :
  calibrate_and_export model X_val y_val path w =
    match calibrated_fit model "sigmoid" "prefit" X_val y_val with
    | Raise e => (Raise e, w)
    | Ok calibrated =>
        match calibrated_classifiers_ calibrated with
        | [] => (Raise "IndexError", w)
        | k :: _ =>
            (Ok path,
             {| rng := rng w;
                files := <[path := JsonFile (calibration_params (a_ k) (b_ k))]>
                           (files w) |})
        end
    end.
Proof.
  unfold calibrate_and_export. rewrite bind_call.
  destruct (calibrated_fit _ _ _ _ _) as [c|e]; [|done].
  rewrite bind_call. by destruct (calibrated_classifiers_ c).
Qed.

Lemma sample_rows_width (w : World) :
  returns create_sample_data w (λ Xy _, Forall (λ row, length row = 5%nat) Xy.1).
Proof.
  unfold returns.
  destruct (create_sample_data_run w)
    as (ca & pa & pc & ps & pd & u & X & st & ? & ? & ? & ? & ? & ? & ? & ? & HX & ->).
  cbn [fst].
  destruct (sample_rows_spec ca pa pc ps pd n_samples) as (X' & HX' & _ & Hrows);
    try done.
  assert (X' = X) as -> by congruence.
  eapply Forall_impl; [exact Hrows|]. by intros row (? & _).
Qed.





End PipelineClaims.

(** ** Applying the calibration *)

Module Platt.

Local Open Scope R_scope.

(** Modelled from the spec: the script only fits and writes [(a, b)];
    the correction itself is applied by the inference runtime, which is
    not part of the script.  Spec section 4.3 gives it as
    [corrected = 1 / (1 + exp(a * raw_score + b))], the formula the
    comment of line 193 also documents. *)
Definition corrected (a b raw_score : R) : R :=
  1 / (1 + exp (a * raw_score + b)).

Lemma corrected_pos a b s : 0 < corrected a b s.
Proof.
  unfold corrected. pose proof (exp_pos (a * s + b)).
  apply Rdiv_lt_0_compat; lra.
Qed.

(** C7.  For fixed [(a, b)] with [a > 0] the corrected probability is
    strictly monotone in the raw score: it decreases, so two raw scores
    [s1 < s2] always come out in the same relative order,
    [corrected s2 < corrected s1]. *)
Theorem corrected_monotone (a b s1 s2 : R) :
  0 < a → s1 < s2 → corrected a b s2 < corrected a b s1.
Proof.
  intros Ha Hs. unfold corrected.
  assert (a * s1 + b < a * s2 + b) as Harg by nra.
  pose proof (exp_increasing _ _ Harg) as Hexp.
  pose proof (exp_pos (a * s1 + b)) as Hp1.
  unfold Rdiv. rewrite !Rmult_1_l.
  apply Rinv_lt_contravar; [|lra].
  apply Rmult_lt_0_compat; lra.
Qed.

Lemma corrected_monotone_witness : corrected 1 0 1 < corrected 1 0 0.
Proof. apply corrected_monotone; lra. Defined.

End Platt.

(** ** The script on the reference libraries *)

Module Runs.

Import Reference.

(** Three validation rows of width 5 and a classifier fitted on width 5. *)
Definition three_rows : ndarray :=
  replicate 3 (astype_float32 <$> [of_int 1200; of_int 40; of_int 1; of_int 2; of_int 0]).

Definition fitted5 : @XGBClassifier width_only := 5%nat.
Definition fitted3 : @XGBClassifier width_only := 3%nat.

(** A classifier fitted on three columns. *)
Definition narrow_model : result XGBClassifier :=
  xgb_fit {| n_estimators := 10; max_depth := 3; learning_rate := decimal 1 10;
             random_state := 42; use_label_encoder := false;
             eval_metric := "logloss" |}
          [[of_int 1; of_int 2; of_int 3]; [of_int 4; of_int 5; of_int 6]] [0; 1].

(** A classifier fitted on three columns does not match the five
    features of the schema, yet [export_to_onnx] returns normally and
    writes an artifact, which declares width 5. *)
Lemma export_accepts_mismatched_width :
  narrow_model = Ok fitted3 ∧
  n_features_in_ fitted3 = 3%nat ∧
  feature_count metadata = Some 5%nat ∧
  (export_to_onnx fitted3 onnx_path fresh).1 = Ok onnx_path ∧
  files (export_to_onnx fitted3 onnx_path fresh).2 !! onnx_path =
    Some (OnnxFile {| proto_source := 3;
                      proto_input := [("float_input", FloatTensorType [None; Some 5])];
                      proto_opset := 12 |}).
Proof. repeat split; by vm_compute. Qed.



(** On a scikit-learn that rejects [cv='prefit'] the calibration stage
    raises, [main] ends with that exception, and the model artifact and
    the feature metadata written by the earlier stages are still there,
    without a calibration file. *)
Lemma failed_run_leaves_two_files :
  (main (SK := prefit_removed) fresh).1 = Raise "InvalidParameterError" ∧
  files (main (SK := prefit_removed) fresh).2 !! onnx_path =
    Some (OnnxFile {| proto_source := 5;
                      proto_input := [("float_input", FloatTensorType [None; Some 5])];
                      proto_opset := 12 |}) ∧
  files (main (SK := prefit_removed) fresh).2 !! metadata_path =
    Some (JsonFile metadata) ∧
  files (main (SK := prefit_removed) fresh).2 !! calibration_path = None.
Proof. repeat split; by vm_compute. Qed.

(** The same run on a scikit-learn that accepts [cv='prefit'] returns
    and leaves the three files. *)
Example complete_run :
  (main fresh).1 = Ok () ∧
  dom (files (main fresh).2) = {[ onnx_path; metadata_path; calibration_path ]}.
Proof. split; [by vm_compute|]. apply (bool_decide_unpack _). by vm_compute. Qed.

Example sample_data_shape :
  match (create_sample_data fresh).1 with
  | Ok (X, y) => length X = 1000%nat ∧ length y = 1000%nat ∧ take 3 y = [0; 1; 1]
  | Raise _ => False
  end.
Proof. by vm_compute. Qed.

End Runs.


(** * Further properties of the script *)

(** ** The sample matrix and its labels *)

#[export] Instance spec_float_eq_dec : EqDecision spec_float.
Proof. solve_decision. Defined.

(** The integers the script stores (ages below 90, category codes and
    counts) pass through the float32 cast unchanged. *)
Lemma small_int_exact (z : Z) :
  0 ≤ z < 128 → promote (astype_float32 (of_int z)) = of_int z.
Proof.
  intros Hz.
  assert (Forall (λ z, promote (astype_float32 (of_int z)) = of_int z)
                 (seqZ 0 128)) as Hall.
  { apply (bool_decide_unpack _). by vm_compute. }
  rewrite Forall_forall in Hall. apply Hall, elem_of_seqZ. lia.
Qed.

Lemma column_stack_lengths (c0 : list float64) cols X :
  column_stack (c0 :: cols) = Ok X →
  Forall (λ c, length c = length c0) (c0 :: cols) ∧
  X = (λ i, (λ c, nth i c (S754_zero false)) <$> (c0 :: cols)) <$> seq 0 (length c0).
Proof.
  unfold column_stack.
  destruct (forallb _ _) eqn:Hall; [|done]. intros [= <-]. split; [|done].
  rewrite forallb_forall in Hall. apply Forall_forall. intros c Hc.
  apply Nat.eqb_eq, Hall, list_elem_of_In, Hc.
Qed.

Lemma sample_rows_length ca pa pc ps pd X :
  sample_rows ca pa pc ps pd = Ok X → length X = length ca.
Proof.
  unfold sample_rows. destruct (column_stack _) as [X0|e] eqn:Hcs; [|done].
  intros [= <-]. apply column_stack_lengths in Hcs as [_ ->].
  by rewrite !length_fmap, length_seq.
Qed.

Lemma nth_lookup_eq {A} (l : list A) i d x : l !! i = Some x → nth i l d = x.
Proof. intros H. by rewrite (nth_lookup_Some _ _ _ _ H). Qed.

(** Row [i] of the matrix, from entry [i] of each column. *)
Lemma sample_rows_at
    (ca : list float64) (pa pc ps pd : list Z) (X : ndarray)
    (i : nat) (c : float64) (a p s d : Z) :
  sample_rows ca pa pc ps pd = Ok X →
  ca !! i = Some c → pa !! i = Some a → pc !! i = Some p →
  ps !! i = Some s → pd !! i = Some d →
  length X = length ca ∧
  X !! i = Some [astype_float32 c;
                 astype_float32 (of_int a);
                 astype_float32 (of_int p);
                 astype_float32 (of_int s);
                 astype_float32 (of_int d)].
Proof.
  intros HX Hc Ha Hp Hs Hd. unfold sample_rows in HX.
  destruct (column_stack _) as [X0|e] eqn:Hcs; [|done].
  injection HX as <-.
  apply column_stack_lengths in Hcs as [_ ->].
  split; [by rewrite !length_fmap, length_seq|].
  unfold ndarray, float32, float64 in *.
  rewrite !list_lookup_fmap, lookup_seq_lt by (by eapply lookup_lt_Some).
  cbn [fmap option_fmap option_map list_fmap plus].
  rewrite (nth_lookup_eq ca i _ c Hc).
  rewrite (nth_lookup_eq (of_int <$> pa) i _ (of_int a))
    by (by rewrite list_lookup_fmap, Ha).
  rewrite (nth_lookup_eq (of_int <$> pc) i _ (of_int p))
    by (by rewrite list_lookup_fmap, Hp).
  rewrite (nth_lookup_eq (of_int <$> ps) i _ (of_int s))
    by (by rewrite list_lookup_fmap, Hs).
  rewrite (nth_lookup_eq (of_int <$> pd) i _ (of_int d))
    by (by rewrite list_lookup_fmap, Hd).
  reflexivity.
Qed.

(** X6.  The denial probability of line 58 takes one of four values,
    chosen by the two threshold tests: 0.8 when the claim amount exceeds
    20000 and there are more than two prior denials, 0.5 and 0.3 when
    only the first, respectively only the second, holds, and 0.0 when
    neither does. *)
Theorem denial_prob_table (claim_amount : float64) (prior_denial : Z) :
  denial_prob_of claim_amount prior_denial =
    match ltb (of_int 20000) claim_amount, bool_decide (2 < prior_denial) with
    | true, true => decimal 8 10
    | true, false => decimal 5 10
    | false, true => decimal 3 10
    | false, false => of_int 0
    end.
Proof.
  unfold denial_prob_of.
  destruct (ltb _ _), (bool_decide _); by vm_compute.
Qed.

(** X7.  A sample whose claim amount does not exceed 20000 and that has
    at most two prior denials gets label 0 whenever the uniform draw it
    is compared with is not negative. *)
Theorem low_risk_sample_label_zero
    (ca : list float64) (pd : list Z) (u : list float64)
    (i : nat) (c : float64) (d : Z) (ui : float64) :
  ca !! i = Some c → pd !! i = Some d → u !! i = Some ui →
  ltb (of_int 20000) c = false → d ≤ 2 → ltb ui (of_int 0) = false →
  sample_labels ca pd u !! i = Some 0.
Proof.
  intros Hc Hd Hu Hlow Hfew Hnn. unfold sample_labels.
  rewrite lookup_zip_with, Hu. cbn [mbind option_bind].
  rewrite lookup_zip_with, Hc. cbn [mbind option_bind]. rewrite Hd.
  cbn [mbind option_bind].
  rewrite denial_prob_table, Hlow.
  rewrite bool_decide_eq_false_2 by lia. by rewrite Hnn.
Qed.

Lemma low_risk_sample_label_zero_witness :
  sample_labels [of_int 1500] [2] [decimal 25 100] !! 0%nat = Some 0.
Proof.
  apply (low_risk_sample_label_zero _ _ _ 0 (of_int 1500) 2 (decimal 25 100));
    by vm_compute.
Defined.

(** X8.  The label is computed from the claim amount as drawn, the
    matrix stores its float32 cast, and the cast can cross the 20000
    threshold: the amount 20000.0005 counts as high for the label
    (probability 0.5) while the value stored for it is exactly 20000,
    which the same test counts as low (probability 0.0). *)
Theorem float32_cast_crosses_threshold :
  ltb (of_int 20000) (decimal 200000005 10000) = true ∧
  promote (astype_float32 (decimal 200000005 10000)) = of_int 20000 ∧
  denial_prob_of (decimal 200000005 10000) 0 = decimal 5 10 ∧
  denial_prob_of (promote (astype_float32 (decimal 200000005 10000))) 0 = of_int 0.
Proof. repeat split; by vm_compute. Qed.

Lemma sample_labels_at
    (ca : list float64) (pd : list Z) (u : list float64)
    (i : nat) (c : float64) (d : Z) (ui : float64) :
  ca !! i = Some c → pd !! i = Some d → u !! i = Some ui →
  sample_labels ca pd u !! i = Some (Z.b2z (ltb ui (denial_prob_of c d))).
Proof.
  intros Hc Hd Hu. unfold sample_labels.
  rewrite lookup_zip_with, Hu. cbn [mbind option_bind].
  rewrite lookup_zip_with, Hc. cbn [mbind option_bind]. by rewrite Hd.
Qed.

Lemma lookup_of_length {A} (l : list A) (i n : nat) :
  length l = n → (i < n)%nat → ∃ x, l !! i = Some x.
Proof. intros <- Hi. by apply lookup_lt_is_Some_2. Qed.

Section SampleDataShape.

Context {NP : NumpyRandom} {XGB : XGBoost} {ONX : Onnxmltools} {SK : Sklearn}.

(** The draws, the matrix and the generator state after
    [create_sample_data] are the same whatever state it is run from. *)
Lemma create_sample_data_fixed :
  ∃ ca pa pc ps pd u X st,
    length ca = n_samples ∧ length pa = n_samples ∧ length pc = n_samples ∧
    length ps = n_samples ∧ length pd = n_samples ∧ length u = n_samples ∧
    Forall (λ x, 18 ≤ x < 90) pa ∧ Forall (λ x, 0 ≤ x < 4) pc ∧
    Forall (λ x, 0 ≤ x < 4) ps ∧ Forall (λ x, 0 ≤ x < 5) pd ∧
    sample_rows ca pa pc ps pd = Ok X ∧
    ∀ w : World,
      create_sample_data w =
        (Ok (X, sample_labels ca pd u), {| rng := st; files := files w |}).
Proof.
  set (d1 := np_uniform (of_int 1000) (of_int 50000) n_samples (np_seed 42)).
  set (d2 := np_randint 18 90 n_samples d1.2).
  set (d3 := np_randint 0 4 n_samples d2.2).
  set (d4 := np_randint 0 4 n_samples d3.2).
  set (d5 := np_randint 0 5 n_samples d4.2).
  set (d6 := np_random n_samples d5.2).
  destruct (sample_rows_spec d1.1 d2.1 d3.1 d4.1 d5.1 n_samples) as (X & HX & _);
    try apply np_uniform_length; try apply np_randint_length;
    try (apply np_randint_range; lia).
  exists d1.1, d2.1, d3.1, d4.1, d5.1, d6.1, X, d6.2.
  repeat split; try apply np_uniform_length; try apply np_randint_length;
    try apply np_random_length; try (apply np_randint_range; lia); try done.
  intros w. unfold create_sample_data.
  rewrite bind_seed, !bind_draw, bind_call; cbn [rng files].
  fold d1 d2 d3 d4 d5. rewrite HX, bind_draw, run_ret; cbn [rng files].
  reflexivity.
Qed.

(** X2.  [create_sample_data] reseeds the generator before it draws:
    from any two states it returns the same matrix and labels and leaves
    the generator in the same state, and it leaves the files as they
    were. *)
Theorem create_sample_data_reseeds (w1 w2 : World) :
  (create_sample_data w1).1 = (create_sample_data w2).1 ∧
  rng (create_sample_data w1).2 = rng (create_sample_data w2).2 ∧
  files (create_sample_data w1).2 = files w1.
Proof.
  destruct create_sample_data_fixed
    as (ca & pa & pc & ps & pd & u & X & st & _ & _ & _ & _ & _ & _ & _ & _ & _ & _ & _ & Hrun).
  by rewrite !Hrun.
Qed.

(** X4.  In every row that [create_sample_data] returns, the four
    integer-valued cells are stored exactly: read back as float64 they
    are the integers drawn, an age in 18..89, two category codes in 0..3
    and a number of prior denials in 0..4. *)
Theorem integer_columns_exact (w : World) :
  returns create_sample_data w (λ Xy _,
    Forall (λ row,
      ∃ age pcat pstate denials,
        18 ≤ age < 90 ∧ 0 ≤ pcat < 4 ∧ 0 ≤ pstate < 4 ∧ 0 ≤ denials < 5 ∧
        length row = 5%nat ∧
        promote <$> drop 1 row = of_int <$> [age; pcat; pstate; denials]) Xy.1).
Proof.
  unfold returns.
  destruct create_sample_data_fixed
    as (ca & pa & pc & ps & pd & u & X & st &
        Lca & Lpa & Lpc & Lps & Lpd & Lu & Rpa & Rpc & Rps & Rpd & HX & Hrun).
  rewrite Hrun. cbn [fst].
  apply Forall_lookup. intros i row Hrow.
  assert (i < n_samples)%nat as Hi.
  { rewrite <- Lca, <- (sample_rows_length _ _ _ _ _ _ HX).
    by eapply lookup_lt_Some. }
  destruct (lookup_of_length ca i _ Lca Hi) as [c Hc].
  destruct (lookup_of_length pa i _ Lpa Hi) as [a Ha].
  destruct (lookup_of_length pc i _ Lpc Hi) as [p Hp].
  destruct (lookup_of_length ps i _ Lps Hi) as [s Hs].
  destruct (lookup_of_length pd i _ Lpd Hi) as [d Hd].
  destruct (sample_rows_at _ _ _ _ _ _ i c a p s d HX Hc Ha Hp Hs Hd) as [_ Hrow'].
  assert (row = [astype_float32 c; astype_float32 (of_int a);
                 astype_float32 (of_int p); astype_float32 (of_int s);
                 astype_float32 (of_int d)]) as ->
    by (unfold ndarray, float32, float64 in *; congruence).
  pose proof (Forall_lookup_1 _ _ _ _ Rpa Ha) as Ba.
  pose proof (Forall_lookup_1 _ _ _ _ Rpc Hp) as Bp.
  pose proof (Forall_lookup_1 _ _ _ _ Rps Hs) as Bs.
  pose proof (Forall_lookup_1 _ _ _ _ Rpd Hd) as Bd.
  simpl in Ba, Bp, Bs, Bd.
  exists a, p, s, d. repeat split; try lia.
  cbn [drop fmap list_fmap].
  by rewrite !small_int_exact by lia.
Qed.

(** X5.  Training data and metadata use the same encoding: in every row
    that [create_sample_data] returns, the cell of a categorical column
    (index 2 or 3) is the code that the metadata's feature of that index
    assigns to one of its labels other than UNKNOWN. *)
Theorem categorical_cells_are_metadata_codes (w : World) :
  returns create_sample_data w (λ Xy _,
    Forall (λ row,
      Forall (λ col,
        ∃ v f m label,
          row !! col = Some v ∧
          feature_at metadata col = Some f ∧
          feature_type f = Some "CATEGORICAL" ∧
          feature_mapping f = Some m ∧
          label ≠ "UNKNOWN" ∧
          assoc label m = Some (promote v))
        [2%nat; 3%nat]) Xy.1).
Proof.
  unfold returns.
  destruct create_sample_data_fixed
    as (ca & pa & pc & ps & pd & u & X & st &
        Lca & Lpa & Lpc & Lps & Lpd & Lu & _ & Rpc & Rps & _ & HX & Hrun).
  rewrite Hrun. cbn [fst].
  destruct (sample_rows_spec ca pa pc ps pd n_samples) as (X' & HX' & _ & Hrows);
    try done.
  assert (X' = X) as -> by congruence.
  eapply Forall_impl; [exact Hrows|].
  intros row (_ & (v2 & Hv2 & z2 & Hz2 & ->) & (v3 & Hv3 & z3 & Hz3 & ->)).
  repeat constructor.
  - eexists _, _, _, (nth (Z.to_nat z2) ["SURGERY"; "DIAGNOSTIC"; "THERAPY"; "EMERGENCY"] "").
    split; [exact Hv2|]. split; [reflexivity|]. split; [reflexivity|].
    split; [reflexivity|]. rewrite small_int_exact by lia.
    assert (z2 = 0 ∨ z2 = 1 ∨ z2 = 2 ∨ z2 = 3) as [-> | [-> | [-> | ->] ] ] by lia;
      by vm_compute.
  - eexists _, _, _, (nth (Z.to_nat z3) ["CA"; "NY"; "TX"; "FL"] "").
    split; [exact Hv3|]. split; [reflexivity|]. split; [reflexivity|].
    split; [reflexivity|]. rewrite small_int_exact by lia.
    assert (z3 = 0 ∨ z3 = 1 ∨ z3 = 2 ∨ z3 = 3) as [-> | [-> | [-> | ->] ] ] by lia;
      by vm_compute.
Qed.

End SampleDataShape.

(** ** What the exporters and [main] leave alone *)

(** The keyword arguments of line 69-76, as [train_model] passes them. *)
Definition hyperparameters : xgb_params :=
  {| n_estimators := 10;
     max_depth := 3;
     learning_rate := decimal 1 10;
     random_state := 42;
     use_label_encoder := false;
     eval_metric := "logloss" |}.



Section Frames.

Context {NP : NumpyRandom} {XGB : XGBoost} {ONX : Onnxmltools} {SK : Sklearn}.

(** X9.  Each of the three exporters touches its output path only:
    whether it returns or raises, every other path holds what it held
    before, and the state of the random generator is unchanged. *)
Theorem exporters_touch_only_their_path
    (model : XGBClassifier) (X_val : ndarray) (y_val : list Z)
    (path p : string) (w : World) :
  p ≠ path →
  (files (export_to_onnx model path w).2 !! p = files w !! p ∧
   rng (export_to_onnx model path w).2 = rng w) ∧
  (files (export_feature_metadata path w).2 !! p = files w !! p ∧
   rng (export_feature_metadata path w).2 = rng w) ∧
  (files (calibrate_and_export model X_val y_val path w).2 !! p = files w !! p ∧
   rng (calibrate_and_export model X_val y_val path w).2 = rng w).
Proof.
  intros Hp.
  rewrite export_to_onnx_run, export_feature_metadata_run, calibrate_and_export_run.
  repeat split.
  - destruct (convert_xgboost _ _ _); [|done]. cbn [snd files].
    by rewrite lookup_insert_ne.
  - by destruct (convert_xgboost _ _ _).
  - cbn [snd files]. by rewrite lookup_insert_ne.
  - destruct (calibrated_fit _ _ _ _ _) as [c|]; [|done].
    destruct (calibrated_classifiers_ c); [done|]. cbn [snd files].
    by rewrite lookup_insert_ne.
  - destruct (calibrated_fit _ _ _ _ _) as [c|]; [|done].
    by destruct (calibrated_classifiers_ c).
Qed.

(** The runs of [main]: the data and the generator state after the
    draws are fixed; then either a stage before the first write raises,
    or the calibration stage raises after two files were written, or
    every stage returns. *)
Lemma main_run :
  ∃ (X : ndarray) (y : list Z) st,
    Forall (λ row, length row = 5%nat) X ∧ Forall binary_label y ∧
    ((∃ e, ∀ w : World, main w = (Raise e, {| rng := st; files := files w |})) ∨
     (∃ e onx, ∀ w : World,
        main w =
          (Raise e,
           {| rng := st;
              files := <[metadata_path := JsonFile metadata]>
                         (<[onnx_path := OnnxFile onx]> (files w)) |})) ∨
     (∃ X_train X_temp y_train y_temp X_val X_test y_val y_test model onx c k ks,
        train_test_split X y (decimal 3 10) 42 =
          Ok (X_train, X_temp, y_train, y_temp) ∧
        train_test_split X_temp y_temp (decimal 5 10) 42 =
          Ok (X_val, X_test, y_val, y_test) ∧
        xgb_fit hyperparameters X_train y_train = Ok model ∧
        convert_xgboost model initial_type 12 = Ok onx ∧
        calibrated_fit model "sigmoid" "prefit" X_val y_val = Ok c ∧
        calibrated_classifiers_ c = k :: ks ∧
        ∀ w : World,
          main w =
            (Ok (),
             {| rng := st;
                files :=
                  <[calibration_path := JsonFile (calibration_params (a_ k) (b_ k))]>
                    (<[metadata_path := JsonFile metadata]>
                       (<[onnx_path := OnnxFile onx]> (files w))) |}))).
Proof.
  destruct create_sample_data_fixed
    as (ca & pa & pc & ps & pd & u & X & st &
        Lca & Lpa & Lpc & Lps & Lpd & Lu & _ & Rpc & Rps & _ & HX & Hrun).
  exists X, (sample_labels ca pd u), st.
  split.
  { destruct (sample_rows_spec ca pa pc ps pd n_samples) as (X' & HX' & _ & Hrows);
      try done.
    assert (X' = X) as -> by congruence.
    eapply Forall_impl; [exact Hrows|]. by intros row (? & _). }
  split; [apply sample_labels_binary|].
  destruct (train_test_split X (sample_labels ca pd u) (decimal 3 10) 42)
    as [[[[X_train X_temp] y_train] y_temp]|e] eqn:Hs1.
  2: { left. exists e. intros w. unfold main.
       by rewrite bind_run, Hrun, bind_call, Hs1. }
  destruct (train_test_split X_temp y_temp (decimal 5 10) 42)
    as [[[[X_val X_test] y_val] y_test]|e] eqn:Hs2.
  2: { left. exists e. intros w. unfold main.
       rewrite bind_run, Hrun, bind_call, Hs1. cbv beta iota.
       by rewrite bind_call, Hs2. }
  destruct (xgb_fit hyperparameters X_train y_train) as [model|e] eqn:Hfit.
  2: { left. exists e. intros w. unfold main.
       rewrite bind_run, Hrun, bind_call, Hs1. cbv beta iota.
       rewrite bind_call, Hs2. cbv beta iota.
       unfold train_model. fold hyperparameters.
       by rewrite bind_call, Hfit. }
  destruct (xgb_score model X_train y_train) as [train_acc|e] eqn:Hsc1.
  2: { left. exists e. intros w. unfold main.
       rewrite bind_run, Hrun, bind_call, Hs1. cbv beta iota.
       rewrite bind_call, Hs2. cbv beta iota.
       unfold train_model. fold hyperparameters.
       rewrite bind_call, Hfit. by rewrite bind_call, Hsc1. }
  destruct (xgb_score model X_test y_test) as [test_acc|e] eqn:Hsc2.
  2: { left. exists e. intros w. unfold main.
       rewrite bind_run, Hrun, bind_call, Hs1. cbv beta iota.
       rewrite bind_call, Hs2. cbv beta iota.
       unfold train_model. fold hyperparameters.
       rewrite bind_call, Hfit, bind_call, Hsc1. by rewrite bind_call, Hsc2. }
  destruct (convert_xgboost model initial_type 12) as [onx|e] eqn:Hcv.
  2: { left. exists e. intros w. unfold main.
       rewrite bind_run, Hrun, bind_call, Hs1. cbv beta iota.
       rewrite bind_call, Hs2. cbv beta iota.
       unfold train_model. fold hyperparameters.
       rewrite bind_call, Hfit, bind_call, Hsc1, bind_call, Hsc2.
       by rewrite bind_run, export_to_onnx_run, Hcv. }
  assert (∀ w : World,
    main w =
      match calibrate_and_export model X_val y_val calibration_path
              {| rng := st;
                 files := <[metadata_path := JsonFile metadata]>
                            (<[onnx_path := OnnxFile onx]> (files w)) |}
      with
      | (Ok _, w') => (Ok (), w')
      | (Raise e, w') => (Raise e, w')
      end) as Hmain.
  { intros w. unfold main.
    rewrite bind_run, Hrun, bind_call, Hs1. cbv beta iota.
    rewrite bind_call, Hs2. cbv beta iota.
    unfold train_model. fold hyperparameters.
    rewrite bind_call, Hfit, bind_call, Hsc1, bind_call, Hsc2.
    rewrite bind_run, export_to_onnx_run, Hcv.
    rewrite bind_run, export_feature_metadata_run. cbn [rng files].
    rewrite bind_run. by destruct (calibrate_and_export _ _ _ _ _) as [[?|?] ?]. }
  destruct (calibrated_fit model "sigmoid" "prefit" X_val y_val) as [c|e] eqn:Hcal.
  2: { right; left. exists e, onx. intros w.
       by rewrite Hmain, calibrate_and_export_run, Hcal. }
  destruct (calibrated_classifiers_ c) as [|k ks] eqn:Hk.
  { right; left. exists "IndexError", onx. intros w.
    by rewrite Hmain, calibrate_and_export_run, Hcal, Hk. }
  right; right.
  exists X_train, X_temp, y_train, y_temp, X_val, X_test, y_val, y_test,
         model, onx, c, k, ks.
  repeat split; try done. intros w.
  by rewrite Hmain, calibrate_and_export_run, Hcal, Hk.
Qed.

End Frames.

(** ** The pipeline as a whole *)

Section MainProperties.

Context {NP : NumpyRandom} {XGB : XGBoost} {ONX : Onnxmltools} {SK : Sklearn}.

(** X10.  [main] writes to its three fixed paths and nowhere else, and
    deletes nothing: whether it returns or raises, a path other than the
    three holds what it held before, and every path that held a file
    still holds one. *)
Theorem main_touches_only_its_three_files (w : World) :
  (∀ p, p ≠ onnx_path → p ≠ metadata_path → p ≠ calibration_path →
        files (main w).2 !! p = files w !! p) ∧
  dom (files w) ⊆ dom (files (main w).2).
Proof.
  destruct main_run as (X & y & st & _ & _ & [(e & H) | [(e & onx & H) | H] ]).
  - rewrite H. cbn [snd files]. by split.
  - rewrite H. cbn [snd files]. split.
    + intros p Ho Hm Hc. by rewrite !lookup_insert_ne.
    + rewrite !dom_insert_L. set_solver.
  - destruct H as (? & ? & ? & ? & ? & ? & ? & ? & ? & onx & c & k & ks &
                   _ & _ & _ & _ & _ & _ & H).
    rewrite H. cbn [snd files]. split.
    + intros p Ho Hm Hc. by rewrite !lookup_insert_ne.
    + rewrite !dom_insert_L. set_solver.
Qed.


End MainProperties.

(** ** More runs on the reference libraries *)

Module MoreRuns.

Import Reference Runs.

Lemma exporters_touch_only_their_path_witness :
  (files (export_to_onnx fitted5 onnx_path fresh).2 !! metadata_path =
     files fresh !! metadata_path ∧
   rng (export_to_onnx fitted5 onnx_path fresh).2 = rng fresh) ∧
  (files (export_feature_metadata onnx_path fresh).2 !! metadata_path =
     files fresh !! metadata_path ∧
   rng (export_feature_metadata onnx_path fresh).2 = rng fresh) ∧
  (files (calibrate_and_export fitted5 three_rows [0; 1; 1] onnx_path fresh).2
     !! metadata_path = files fresh !! metadata_path ∧
   rng (calibrate_and_export fitted5 three_rows [0; 1; 1] onnx_path fresh).2 =
     rng fresh).
Proof.
  apply (exporters_touch_only_their_path
           fitted5 three_rows [0; 1; 1] onnx_path metadata_path fresh).
  by vm_compute.
Defined.

Lemma main_touches_only_its_three_files_witness :
  files (main fresh).2 !! "README.md" = files fresh !! "README.md".
Proof.
  apply (proj1 (main_touches_only_its_three_files fresh)); by vm_compute.
Defined.

End MoreRuns.


(** * The script with its console and a disk that can fail

    The definitions above run the script where every [print] is accepted
    and every write succeeds.  Here nothing is left out: each [print] of
    the script is kept and can raise (a console that cannot encode
    U+2713, a closed pipe), a write can be refused or break off half way,
    and reading [a_] and [b_] off the calibrator can raise.  What the
    console, the disk and the attribute access do is part of the
    interface [Runtime]. *)

(** What [print] is given: a literal, or an f-string with the values of
    its fields.  Rendering and encoding are the console's. *)
Inductive message : Type :=
  | Text (s : string)
  | FString (template : string) (values : list json).

(** How a write ends: the whole content is in place; the file could not
    be opened and is untouched; or the file was opened, hence truncated,
    and the write broke off. *)
Inductive write_outcome : Type :=
  | Written
  | Refused (e : exn)
  | Broken (e : exn).

Class Runtime {XGB : XGBoost} {ONX : Onnxmltools} {SK : Sklearn} : Type := {
  os_print : message → result ();
  os_write : string → file → write_outcome;
  (** [float(calibrator.a_)] and [float(calibrator.b_)]: the access can
      raise; when it returns, it returns the attribute *)
  float_a_ : Calibrator → result float64;
  float_b_ : Calibrator → result float64;
  float_a_value : ∀ k v, float_a_ k = Ok v → v = a_ k;
  float_b_value : ∀ k v, float_b_ k = Ok v → v = b_ k
}.

(** The real number a finite float stands for. *)
Definition float_value (x : spec_float) : option R :=
  match x with
  | S754_zero _ => Some 0%R
  | S754_finite s m e =>
      Some ((if s then -1 else 1) * IZR (Z.pos m) * powerRZ 2 e)%R
  | S754_infinity _ | S754_nan => None
  end.

(** What [a_] and [b_] of a fitted sigmoid calibrator mean, as line 193
    documents them: the calibrator maps a raw score to
    1 / (1 + exp(a * score + b)). *)
Class SigmoidCalibration {XGB : XGBoost} {SK : Sklearn} : Type := {
  predicted : Calibrator → R → R;
  predicted_sigmoid : ∀ k a b,
    float_value (a_ k) = Some a → float_value (b_ k) = Some b →
    ∀ score, predicted k score = (1 / (1 + exp (a * score + b)))%R
}.

Module Io.

Definition nl : string := String (Ascii.ascii_of_nat 10) EmptyString.

(** ["=" * 60]. *)
Definition rule : string :=
  "============================================================".

Section Script.

Context {NP : NumpyRandom} {XGB : XGBoost} {ONX : Onnxmltools} {SK : Sklearn}
        {RT : Runtime}.

(** What a path of the working directory holds: a whole file, or what
    is left of a write that broke off. *)
Inductive content : Type :=
  | Whole (f : file)
  | Partial.

Record State : Type := {
  generator : RandomState;
  disk : gmap string content
}.

Definition IO (A : Type) : Type := State → result A * State.

#[export] Instance IO_ret : MRet IO := λ A a s, (Ok a, s).

#[export] Instance IO_bind : MBind IO := λ A B k m s,
  match m s with
  | (Ok a, s') => k a s'
  | (Raise e, s') => (Raise e, s')
  end.

Definition call {A : Type} (r : result A) : IO A := λ s, (r, s).

(** [print(m)]. *)
Definition print (m : message) : IO () := λ s, (os_print m, s).

(** [with open(path, 'w') as f: json.dump(...)] and
    [onnxmltools.utils.save_model(onnx_model, path)]. *)
Definition write (path : string) (f : file) : IO () := λ s,
  match os_write path f with
  | Written =>
      (Ok (), {| generator := generator s; disk := <[path := Whole f]> (disk s) |})
  | Refused e => (Raise e, s)
  | Broken e =>
      (Raise e, {| generator := generator s; disk := <[path := Partial]> (disk s) |})
  end.

(** A function of the script that neither prints nor writes, run on the
    generator of the larger state. *)
Definition embed {A : Type} (m : Py A) : IO A := λ s,
  let r := m {| rng := generator s; files := ∅ |} in
  (r.1, {| generator := rng r.2; disk := disk s |}).

(** Lines 31-61: no [print], no file. *)
Definition create_sample_data : IO (ndarray * list Z) :=
  embed create_sample_data.

(** Lines 64-79: no [print], no file. *)
Definition train_model (X_train : ndarray) (y_train : list Z) : IO XGBClassifier :=
  embed (train_model X_train y_train).

(** Lines 82-108. *)
Definition export_to_onnx (model : XGBClassifier) (output_path : string) : IO string :=
  onnx_model ← call (convert_xgboost model initial_type 12);
  write output_path (OnnxFile onnx_model);;
  print (FString "✓ ONNX model saved to: {output_path}" [JStr output_path]);;
  mret output_path.

(** Lines 111-168. *)
Definition export_feature_metadata (output_path : string) : IO string :=
  write output_path (JsonFile metadata);;
  print (FString "✓ Feature metadata saved to: {output_path}" [JStr output_path]);;
  mret output_path.

(** Lines 171-210.  The f-string of line 208 reads the two attributes
    again. *)
Definition calibrate_and_export
    (model : XGBClassifier) (X_val : ndarray) (y_val : list Z)
    (output_path : string) : IO string :=
  calibrated ← call (calibrated_fit model "sigmoid" "prefit" X_val y_val);
  calibrator ← call (index0 (calibrated_classifiers_ calibrated));
  a ← call (float_a_ calibrator);
  b ← call (float_b_ calibrator);
  write output_path (JsonFile (calibration_params a b));;
  print (FString "✓ Calibration parameters saved to: {output_path}"
                 [JStr output_path]);;
  a' ← call (float_a_ calibrator);
  b' ← call (float_b_ calibrator);
  print (FString "  Platt scaling: a={calibrator.a_:.4f}, b={calibrator.b_:.4f}"
                 [JFloat a'; JFloat b']);;
  mret output_path.

(** Lines 213-267. *)
Definition main : IO () :=
  print (Text rule);;
  print (Text "XGBoost to ONNX Export Pipeline");;
  print (Text rule);;
  print (Text (nl +:+ "1. Creating sample data..."));;
  '(X, y) ← create_sample_data;
  '(X_train, X_temp, y_train, y_temp) ← call (train_test_split X y (decimal 3 10) 42);
  '(X_val, X_test, y_val, y_test) ← call (train_test_split X_temp y_temp (decimal 5 10) 42);
  print (FString "   Train: {len(X_train)} samples" [JInt (Z.of_nat (length X_train))]);;
  print (FString "   Val:   {len(X_val)} samples" [JInt (Z.of_nat (length X_val))]);;
  print (FString "   Test:  {len(X_test)} samples" [JInt (Z.of_nat (length X_test))]);;
  print (Text (nl +:+ "2. Training XGBoost model..."));;
  model ← train_model X_train y_train;
  train_acc ← call (xgb_score model X_train y_train);
  test_acc ← call (xgb_score model X_test y_test);
  print (FString "   Train accuracy: {train_acc:.4f}" [JFloat train_acc]);;
  print (FString "   Test accuracy:  {test_acc:.4f}" [JFloat test_acc]);;
  print (Text (nl +:+ "3. Exporting to ONNX..."));;
  export_to_onnx model onnx_path;;
  print (Text (nl +:+ "4. Exporting feature metadata..."));;
  export_feature_metadata metadata_path;;
  print (Text (nl +:+ "5. Calibrating model and exporting parameters..."));;
  calibrate_and_export model X_val y_val calibration_path;;
  print (Text (nl +:+ rule));;
  print (Text "Export complete!");;
  print (Text rule);;
  print (Text (nl +:+ "Generated files:"));;
  print (Text "  1. claim_denial_model.onnx       - ONNX model file");;
  print (Text "  2. feature_metadata.json         - Feature definitions");;
  print (Text "  3. calibration_params.json       - Calibration parameters");;
  print (Text (nl +:+ "Next steps:"));;
  print (Text "  1. Copy these files to:");;
  print (Text "     candid-inference-impl/src/main/resources/models/");;
  print (Text "  2. Run Java inference:");;
  print (Text "     ./gradlew :candid-inference-impl:build");;
  print (Text "  3. Test predictions:");;
  print (Text "     See README.md for usage examples");;
  print (Text rule);;
  mret ().

(** The state after a completed or a broken write at [path]. *)
Definition put (path : string) (c : content) (s : State) : State :=
  {| generator := generator s; disk := <[path := c]> (disk s) |}.




(** What the inference runtime reads from a calibration file (spec
    section 6): the pair [(a, b)] of a file of type PLATT_SCALING. *)
Definition platt_parameters (j : json) : option (float64 * float64) :=
  ty ← dict_get "type" j ≫= as_str;
  ps ← dict_get "parameters" j;
  a ← dict_get "a" ps ≫= as_float;
  b ← dict_get "b" ps ≫= as_float;
  if decide (ty = "PLATT_SCALING") then Some (a, b) else None.

End Script.

(** ** Properties of the script with console and disk *)

Section Properties.

Context {NP : NumpyRandom} {XGB : XGBoost} {ONX : Onnxmltools} {SK : Sklearn}
        {RT : Runtime}.

Lemma run_bind {A B} (m : IO A) (k : A → IO B) (s : State) :
  (m ≫= k) s =
    match m s with
    | (Ok a, s') => k a s'
    | (Raise e, s') => (Raise e, s')
    end.
Proof. reflexivity. Qed.

Lemma run_call {A B} (r : result A) (k : A → IO B) (s : State) :
  (call r ≫= k) s = match r with Ok a => k a s | Raise e => (Raise e, s) end.
Proof. unfold mbind, IO_bind, call. by destruct r. Qed.

Lemma run_print {B} (m : message) (k : () → IO B) (s : State) :
  (print m ≫= k) s =
    match os_print m with Ok u => k u s | Raise e => (Raise e, s) end.
Proof. unfold mbind, IO_bind, print. by destruct (os_print m). Qed.

Lemma run_write {B} (path : string) (f : file) (k : () → IO B) (s : State) :
  (write path f ≫= k) s =
    match os_write path f with
    | Written => k () (put path (Whole f) s)
    | Refused e => (Raise e, s)
    | Broken e => (Raise e, put path Partial s)
    end.
Proof. unfold mbind, IO_bind, write, put. by destruct (os_write path f). Qed.

Lemma run_mret {A} (a : A) (s : State) : (mret a : IO A) s = (Ok a, s).
Proof. reflexivity. Qed.

Lemma train_model_runs X_train y_train (s : State) :
  train_model X_train y_train s = (xgb_fit hyperparameters X_train y_train, s).
Proof. by destruct s. Qed.

(** The data and the generator state after [create_sample_data] are
    fixed; the disk is left as it was. *)
Lemma create_sample_data_runs :
  ∃ (X : ndarray) (y : list Z) st,
    Forall (λ row, length row = 5%nat) X ∧ Forall binary_label y ∧
    ∀ s : State,
      create_sample_data s = (Ok (X, y), {| generator := st; disk := disk s |}).
Proof.
  destruct create_sample_data_fixed
    as (ca & pa & pc & ps & pd & u & X & st &
        Lca & Lpa & Lpc & Lps & Lpd & Lu & _ & Rpc & Rps & _ & HX & Hrun).
  exists X, (sample_labels ca pd u), st.
  split.
  { destruct (sample_rows_spec ca pa pc ps pd n_samples) as (X' & HX' & _ & Hrows);
      try done.
    assert (X' = X) as -> by congruence.
    eapply Forall_impl; [exact Hrows|]. by intros row (? & _). }
  split; [apply sample_labels_binary|].
  intros s. unfold create_sample_data, embed. by rewrite Hrun.
Qed.

Lemma export_to_onnx_runs (model : XGBClassifier) (path : string) (s : State) :
  export_to_onnx model path s =
    match convert_xgboost model initial_type 12 with
    | Raise e => (Raise e, s)
    | Ok onx =>
        match os_write path (OnnxFile onx) with
        | Refused e => (Raise e, s)
        | Broken e => (Raise e, put path Partial s)
        | Written =>
            match os_print (FString "✓ ONNX model saved to: {output_path}"
                                    [JStr path]) with
            | Ok _ => (Ok path, put path (Whole (OnnxFile onx)) s)
            | Raise e => (Raise e, put path (Whole (OnnxFile onx)) s)
            end
        end
    end.
Proof.
  unfold export_to_onnx. rewrite run_call.
  destruct (convert_xgboost model initial_type 12) as [onx|e]; [|done].
  rewrite run_write. destruct (os_write _ _); [|done..].
  rewrite run_print. by destruct (os_print _).
Qed.

Lemma export_feature_metadata_runs (path : string) (s : State) :
  export_feature_metadata path s =
    match os_write path (JsonFile metadata) with
    | Refused e => (Raise e, s)
    | Broken e => (Raise e, put path Partial s)
    | Written =>
        match os_print (FString "✓ Feature metadata saved to: {output_path}"
                                [JStr path]) with
        | Ok _ => (Ok path, put path (Whole (JsonFile metadata)) s)
        | Raise e => (Raise e, put path (Whole (JsonFile metadata)) s)
        end
    end.
Proof.
  unfold export_feature_metadata. rewrite run_write.
  destruct (os_write _ _); [|done..].
  rewrite run_print. by destruct (os_print _).
Qed.

Lemma calibrate_and_export_runs
    (model : XGBClassifier) (X_val : ndarray) (y_val : list Z)
    (path : string) (s : State) :
  calibrate_and_export model X_val y_val path s =
    match calibrated_fit model "sigmoid" "prefit" X_val y_val with
    | Raise e => (Raise e, s)
    | Ok calibrated =>
        match calibrated_classifiers_ calibrated with
        | [] => (Raise "IndexError", s)
        | k :: _ =>
            match float_a_ k with
            | Raise e => (Raise e, s)
            | Ok a =>
                match float_b_ k with
                | Raise e => (Raise e, s)
                | Ok b =>
                    match os_write path (JsonFile (calibration_params a b)) with
                    | Refused e => (Raise e, s)
                    | Broken e => (Raise e, put path Partial s)
                    | Written =>
                        let s' := put path (Whole (JsonFile (calibration_params a b))) s in
                        match os_print (FString "✓ Calibration parameters saved to: {output_path}"
                                                [JStr path]) with
                        | Raise e => (Raise e, s')
                        | Ok _ =>
                            match os_print (FString "  Platt scaling: a={calibrator.a_:.4f}, b={calibrator.b_:.4f}"
                                                    [JFloat a; JFloat b]) with
                            | Raise e => (Raise e, s')
                            | Ok _ => (Ok path, s')
                            end
                        end
                    end
                end
            end
        end
    end.
Proof.
  unfold calibrate_and_export. rewrite run_call.
  destruct (calibrated_fit _ _ _ _ _) as [c|e]; [|done].
  rewrite run_call. destruct (calibrated_classifiers_ c) as [|k ks]; [done|].
  cbn [index0]. rewrite run_call. destruct (float_a_ k) as [a|e] eqn:Ha; [|done].
  rewrite run_call. destruct (float_b_ k) as [b|e] eqn:Hb; [|done].
  rewrite run_write. destruct (os_write _ _); [|done..].
  rewrite run_print. destruct (os_print _); [|done].
  rewrite run_call. rewrite run_call.
  rewrite run_print. by destruct (os_print _).
Qed.

(** C1 (as amended).  The width that an artifact written by
    [export_to_onnx] declares is the constant 5: it is the feature count
    of the metadata and the width of every row of the sample matrix.
    The function is given no width and compares none.  For every
    classifier, whatever width it was fitted on, the call leaves the
    disk as it was, or leaves a broken file at its path, or leaves there
    the conversion of that classifier, which declares width 5; it
    returns only in the last case; and it does leave the artifact
    whenever the conversion and the write succeed, and returns when the
    [print] that follows succeeds too. *)
Theorem export_declares_width_five
    (model : XGBClassifier) (path : string) (s : State) :
  declared_width initial_type = Z.of_nat <$> feature_count metadata ∧
  feature_count metadata = Some 5%nat ∧
  (∃ X y, (create_sample_data s).1 = Ok (X, y) ∧
          Forall (λ row, length row = 5%nat) X) ∧
  match export_to_onnx model path s with
  | (r, s') =>
      let written :=
        ∃ onx,
          convert_xgboost model initial_type 12 = Ok onx ∧
          declared_width (graph_input onx) = Z.of_nat <$> feature_count metadata ∧
          s' = put path (Whole (OnnxFile onx)) s in
      match r with
      | Ok p => p = path ∧ written
      | Raise _ => s' = s ∨ s' = put path Partial s ∨ written
      end
  end ∧
  (∀ onx,
     convert_xgboost model initial_type 12 = Ok onx →
     os_write path (OnnxFile onx) = Written →
     (export_to_onnx model path s).2 = put path (Whole (OnnxFile onx)) s ∧
     declared_width (graph_input onx) = Some 5 ∧
     (os_print (FString "✓ ONNX model saved to: {output_path}" [JStr path]) = Ok () →
      (export_to_onnx model path s).1 = Ok path)).
Proof.
  split; [reflexivity|]. split; [reflexivity|]. split.
  { destruct create_sample_data_runs as (X & y & st & HX & _ & Hrun).
    exists X, y. by rewrite Hrun. }
  rewrite export_to_onnx_runs. split.
  - destruct (convert_xgboost model initial_type 12) as [onx|e] eqn:Hc;
      [|by left].
    pose proof (convert_xgboost_input _ _ _ _ Hc) as Hin.
    assert (∃ onx0, Ok onx = Ok onx0 ∧
              declared_width (graph_input onx0) = Z.of_nat <$> feature_count metadata ∧
              put path (Whole (OnnxFile onx)) s = put path (Whole (OnnxFile onx0)) s)
      as Hwritten by (exists onx; by rewrite Hin).
    destruct (os_write _ _); [|by left|by right; left].
    destruct (os_print _); [done|]. by right; right.
  - intros onx Hc Hw. rewrite Hc, Hw.
    pose proof (convert_xgboost_input _ _ _ _ Hc) as Hin.
    split; [by destruct (os_print _)|]. split; [by rewrite Hin|].
    by intros ->.
Qed.

(** C6.  The calibration file that [calibrate_and_export] writes has
    top-level [type] equal to ["PLATT_SCALING"] and a [parameters]
    record with exactly the two float fields [a] and [b]; they are the
    [a_] and [b_] of the first calibrator of the fit for this model and
    this validation data, and, read with the convention
    1 / (1 + exp(a * raw_score + b)), they give the probability this
    calibrator assigns to a raw score.  The call leaves the disk as it
    was, or a broken file at its path, or this file; it returns only in
    the last case; and it does leave this file whenever the fit, the
    two attribute reads and the write succeed, and returns when the two
    [print]s that follow succeed too. *)
Theorem calibration_file_is_platt_scaling {SC : SigmoidCalibration}
    (model : XGBClassifier) (X_val : ndarray) (y_val : list Z)
    (path : string) (s : State) :
  match calibrate_and_export model X_val y_val path s with
  | (r, s') =>
      let written :=
        ∃ calibrated k j,
          calibrated_fit model "sigmoid" "prefit" X_val y_val = Ok calibrated ∧
          head (calibrated_classifiers_ calibrated) = Some k ∧
          s' = put path (Whole (JsonFile j)) s ∧
          j = JDict [("type", JStr "PLATT_SCALING");
                     ("parameters", JDict [("a", JFloat (a_ k)); ("b", JFloat (b_ k))])] ∧
          platt_parameters j = Some (a_ k, b_ k) ∧
          (∀ a b, float_value (a_ k) = Some a → float_value (b_ k) = Some b →
                  ∀ raw_score,
                    Platt.corrected a b raw_score = predicted k raw_score) in
      match r with
      | Ok p => p = path ∧ written
      | Raise _ => s' = s ∨ s' = put path Partial s ∨ written
      end
  end ∧
  (∀ calibrated k ks a b,
     calibrated_fit model "sigmoid" "prefit" X_val y_val = Ok calibrated →
     calibrated_classifiers_ calibrated = k :: ks →
     float_a_ k = Ok a → float_b_ k = Ok b →
     os_write path (JsonFile (calibration_params a b)) = Written →
     a = a_ k ∧ b = b_ k ∧
     (calibrate_and_export model X_val y_val path s).2 =
       put path (Whole (JsonFile (calibration_params (a_ k) (b_ k)))) s ∧
     (os_print (FString "✓ Calibration parameters saved to: {output_path}"
                        [JStr path]) = Ok () →
      os_print (FString "  Platt scaling: a={calibrator.a_:.4f}, b={calibrator.b_:.4f}"
                        [JFloat a; JFloat b]) = Ok () →
      (calibrate_and_export model X_val y_val path s).1 = Ok path)).
Proof.
  rewrite calibrate_and_export_runs. split.
  - destruct (calibrated_fit _ _ _ _ _) as [c|e] eqn:Hfit; [|by left].
    destruct (calibrated_classifiers_ c) as [|k ks] eqn:Hk; [by left|].
    destruct (float_a_ k) as [a|e] eqn:Ha; [|by left].
    destruct (float_b_ k) as [b|e] eqn:Hb; [|by left].
    apply float_a_value in Ha as ->. apply float_b_value in Hb as ->.
    assert (∃ calibrated k0 j,
              Ok c = Ok calibrated ∧
              head (calibrated_classifiers_ calibrated) = Some k0 ∧
              put path (Whole (JsonFile (calibration_params (a_ k) (b_ k)))) s =
                put path (Whole (JsonFile j)) s ∧
              j = JDict [("type", JStr "PLATT_SCALING");
                         ("parameters",
                          JDict [("a", JFloat (a_ k0)); ("b", JFloat (b_ k0))])] ∧
              platt_parameters j = Some (a_ k0, b_ k0) ∧
              (∀ a b, float_value (a_ k0) = Some a → float_value (b_ k0) = Some b →
                      ∀ raw_score,
                        Platt.corrected a b raw_score = predicted k0 raw_score))
      as Hwritten.
    { exists c, k, (calibration_params (a_ k) (b_ k)).
      split; [done|]. split; [by rewrite Hk|]. split; [done|].
      split; [done|]. split; [done|].
      intros a b Hva Hvb score.
      by rewrite (predicted_sigmoid k a b Hva Hvb). }
    destruct (os_write _ _); [|by left|by right; left].
    cbv zeta. destruct (os_print _); [|by right; right].
    destruct (os_print _); [done|by right; right].
  - intros c k ks a b Hfit Hk Ha Hb Hw. rewrite Hfit, Hk, Ha, Hb, Hw.
    apply float_a_value in Ha as ->. apply float_b_value in Hb as ->.
    split; [done|]. split; [done|]. cbv zeta. split.
    + destruct (os_print _); [|done]. by destruct (os_print _).
    + by intros -> ->.
Qed.



End Properties.

End Io.


(** ** The first reading of the script inside the second

    On a console that accepts every [print], a disk on which every
    write completes and a calibrator whose two attributes can be read,
    the script with console and disk does exactly what the definitions
    of the first part say: these are its runs in which nothing but a
    library call fails. *)

Section Agreement.

Context {NP : NumpyRandom} {XGB : XGBoost} {ONX : Onnxmltools} {SK : Sklearn}
        {RT : Runtime}.

Definition nothing_fails : Prop :=
  (∀ m, os_print m = Ok ()) ∧ (∀ p f, os_write p f = Written) ∧
  (∀ k, float_a_ k = Ok (a_ k)) ∧ (∀ k, float_b_ k = Ok (b_ k)).

(** A directory of whole files. *)
Definition on_disk (w : World) : Io.State :=
  {| Io.generator := rng w; Io.disk := Io.Whole <$> files w |}.

Definition outcome {A : Type} (r : result A * World) : result A * Io.State :=
  (r.1, on_disk r.2).

Lemma export_to_onnx_agrees (model : XGBClassifier) (path : string) (w : World) :
  nothing_fails →
  Io.export_to_onnx model path (on_disk w) = outcome (export_to_onnx model path w).
Proof.
  intros (Hp & Hw & _). rewrite Io.export_to_onnx_runs, export_to_onnx_run.
  destruct (convert_xgboost model initial_type 12) as [onx|e]; [|done].
  rewrite Hw, Hp. unfold outcome, Io.put, on_disk.
  cbn [fst snd rng files Io.generator Io.disk].
  by rewrite fmap_insert.
Qed.

Lemma export_feature_metadata_agrees (path : string) (w : World) :
  nothing_fails →
  Io.export_feature_metadata path (on_disk w) =
    outcome (export_feature_metadata path w).
Proof.
  intros (Hp & Hw & _).
  rewrite Io.export_feature_metadata_runs, export_feature_metadata_run.
  rewrite Hw, Hp. unfold outcome, Io.put, on_disk.
  cbn [fst snd rng files Io.generator Io.disk].
  by rewrite fmap_insert.
Qed.

Lemma calibrate_and_export_agrees
    (model : XGBClassifier) (X_val : ndarray) (y_val : list Z)
    (path : string) (w : World) :
  nothing_fails →
  Io.calibrate_and_export model X_val y_val path (on_disk w) =
    outcome (calibrate_and_export model X_val y_val path w).
Proof.
  intros (Hp & Hw & Ha & Hb).
  rewrite Io.calibrate_and_export_runs, calibrate_and_export_run.
  destruct (calibrated_fit _ _ _ _ _) as [c|e]; [|done].
  destruct (calibrated_classifiers_ c) as [|k ks]; [done|].
  rewrite Ha, Hb, Hw. cbv zeta. rewrite !Hp.
  unfold outcome, Io.put, on_disk.
  cbn [fst snd rng files Io.generator Io.disk].
  by rewrite fmap_insert.
Qed.

Lemma main_agrees (w : World) :
  nothing_fails → Io.main (on_disk w) = outcome (main w).
Proof.
  intros Hn. pose proof Hn as (Hp & Hw & Ha & Hb).
  destruct create_sample_data_fixed
    as (ca & pa & pc & ps & pd & u & X & st & _ & _ & _ & _ & _ & _ &
        _ & _ & _ & _ & _ & Hrun).
  unfold Io.main, main.
  do 4 (rewrite Io.run_print, Hp).
  rewrite Io.run_bind, bind_run. unfold Io.create_sample_data, Io.embed.
  rewrite !Hrun. cbn [fst snd rng files Io.generator Io.disk on_disk].
  rewrite Io.run_call, bind_call.
  destruct (train_test_split X _ (decimal 3 10) 42)
    as [ [ [ [X_train X_temp] y_train] y_temp] | e]; [|done].
  rewrite Io.run_call, bind_call.
  destruct (train_test_split X_temp y_temp (decimal 5 10) 42)
    as [ [ [ [X_val X_test] y_val] y_test] | e]; [|done].
  do 4 (rewrite Io.run_print, Hp).
  rewrite Io.run_bind, Io.train_model_runs.
  unfold train_model. fold hyperparameters. rewrite bind_call.
  destruct (xgb_fit hyperparameters X_train y_train) as [model|e]; [|done].
  rewrite Io.run_call, bind_call.
  destruct (xgb_score model X_train y_train) as [train_acc|e]; [|done].
  rewrite Io.run_call, bind_call.
  destruct (xgb_score model X_test y_test) as [test_acc|e]; [|done].
  do 3 (rewrite Io.run_print, Hp).
  rewrite Io.run_bind, bind_run.
  change {| Io.generator := st; Io.disk := Io.Whole <$> files w |}
    with (on_disk {| rng := st; files := files w |}).
  rewrite export_to_onnx_agrees by done.
  destruct (export_to_onnx model onnx_path _) as [ [p1|e] w1]; [|done].
  cbn [outcome fst snd].
  rewrite Io.run_print, Hp, Io.run_bind, bind_run.
  rewrite export_feature_metadata_agrees by done.
  destruct (export_feature_metadata metadata_path _) as [ [p2|e] w2]; [|done].
  cbn [outcome fst snd].
  rewrite Io.run_print, Hp, Io.run_bind, bind_run.
  rewrite calibrate_and_export_agrees by done.
  destruct (calibrate_and_export model X_val y_val calibration_path _)
    as [ [p3|e] w3]; [|done].
  cbn [outcome fst snd].
  do 15 (rewrite Io.run_print, Hp).
  by rewrite Io.run_mret, run_ret.
Qed.

End Agreement.


(** ** The script with console and disk on the reference libraries *)

Module IoRuns.

Import Reference Runs Io.

Lemma read_back {A : Type} (x v : A) : Ok x = Ok v → v = x.
Proof. by intros [= ->]. Qed.

(** A console that accepts everything, a disk that completes every
    write, attributes that can be read. *)
#[export] Instance reliable : Runtime := {|
  os_print := λ _, Ok ();
  os_write := λ _ _, Written;
  float_a_ := λ k, Ok (a_ k);
  float_b_ := λ k, Ok (b_ k);
  float_a_value := λ k v, read_back (a_ k) v;
  float_b_value := λ k v, read_back (b_ k) v
|}.




(** A disk that fills up while the second file is written. *)
Definition disk_fills_up : Runtime := {|
  os_print := λ _, Ok ();
  os_write := λ p _,
    if decide (p = metadata_path) then Broken "OSError" else Written;
  float_a_ := λ k, Ok (a_ k);
  float_b_ := λ k, Ok (b_ k);
  float_a_value := λ k v, read_back (a_ k) v;
  float_b_value := λ k v, read_back (b_ k) v
|}.

(** The calibrator of the reference fit predicts by the formula of
    line 193. *)
Definition sigmoid_of (k : float64 * float64) (score : R) : R :=
  match float_value k.1, float_value k.2 with
  | Some a, Some b => (1 / (1 + exp (a * score + b)))%R
  | _, _ => 0%R
  end.

Lemma sigmoid_of_spec (k : float64 * float64) (a b : R) :
  float_value k.1 = Some a → float_value k.2 = Some b →
  ∀ score, sigmoid_of k score = (1 / (1 + exp (a * score + b)))%R.
Proof. unfold sigmoid_of. by intros -> ->. Qed.

#[export] Instance reference_sigmoid : SigmoidCalibration := {|
  predicted := sigmoid_of;
  predicted_sigmoid := sigmoid_of_spec
|}.

(** The empty working directory before a run. *)
Definition empty_dir : State := {| generator := 0; disk := ∅ |}.

(** The artifact the reference converter makes of a classifier. *)
Definition artifact (width : nat) : proto :=
  {| proto_source := width;
     proto_input := [("float_input", FloatTensorType [None; Some 5])];
     proto_opset := 12 |}.

(** C1, the claim as stated fails: a classifier fitted on three columns
    does not match the five features of the schema, yet
    [export_to_onnx] returns normally and leaves an artifact, which
    declares width 5; no width is compared and no ShapeMismatch is
    raised. *)
Lemma mismatched_width_is_exported :
  narrow_model = Ok fitted3 ∧
  n_features_in_ fitted3 = 3%nat ∧
  feature_count metadata = Some 5%nat ∧
  (export_to_onnx fitted3 onnx_path empty_dir).1 = Ok onnx_path ∧
  disk (export_to_onnx fitted3 onnx_path empty_dir).2 !! onnx_path =
    Some (Whole (OnnxFile (artifact 3))) ∧
  declared_width (graph_input (artifact 3)) = Some 5.
Proof. repeat split; by vm_compute. Qed.

(** With the reference converter and a disk that completes the write,
    the artifact of a classifier fitted on three columns is written,
    declares width 5, and the call returns. *)
Lemma export_declares_width_five_witness :
  (export_to_onnx fitted3 onnx_path empty_dir).2 =
    put onnx_path (Whole (OnnxFile (artifact 3))) empty_dir ∧
  declared_width (graph_input (artifact 3)) = Some 5 ∧
  (export_to_onnx fitted3 onnx_path empty_dir).1 = Ok onnx_path.
Proof.
  destruct (export_declares_width_five fitted3 onnx_path empty_dir)
    as (_ & _ & _ & _ & H).
  destruct (H (artifact 3) eq_refl eq_refl) as (H1 & H2 & H3).
  exact (conj H1 (conj H2 (H3 eq_refl))).
Defined.


(** When the disk fills up during the second write, [main] ends with
    the model file whole and the metadata file broken off. *)
Example failed_write_leaves_broken_file :
  (main (RT := disk_fills_up) empty_dir).1 = Raise "OSError" ∧
  disk (main (RT := disk_fills_up) empty_dir).2 !! onnx_path =
    Some (Whole (OnnxFile (artifact 5))) ∧
  disk (main (RT := disk_fills_up) empty_dir).2 !! metadata_path = Some Partial ∧
  disk (main (RT := disk_fills_up) empty_dir).2 !! calibration_path = None.
Proof. repeat split; by vm_compute. Qed.







(** On the reference fit with labels 0, 1, 1 the calibration file is
    written with the fitted pair and the call returns. *)
Lemma calibration_file_is_platt_scaling_witness :
  (of_int (-1), div (of_int 2) (of_int 4)).1 = a_ (of_int (-1), div (of_int 2) (of_int 4)) ∧
  (calibrate_and_export fitted5 three_rows [0; 1; 1] calibration_path empty_dir).2 =
    put calibration_path
      (Whole (JsonFile (calibration_params (of_int (-1)) (div (of_int 2) (of_int 4)))))
      empty_dir ∧
  (calibrate_and_export fitted5 three_rows [0; 1; 1] calibration_path empty_dir).1 =
    Ok calibration_path.
Proof.
  destruct (calibration_file_is_platt_scaling
              fitted5 three_rows [0; 1; 1] calibration_path empty_dir) as (_ & H).
  destruct (H [(of_int (-1), div (of_int 2) (of_int 4))]
              (of_int (-1), div (of_int 2) (of_int 4)) []
              (of_int (-1)) (div (of_int 2) (of_int 4))
              eq_refl eq_refl eq_refl eq_refl eq_refl)
    as (H1 & _ & H3 & H4).
  exact (conj H1 (conj H3 (H4 eq_refl eq_refl))).
Defined.

End IoRuns.


Module AgreementRuns.

Import Reference Runs IoRuns.

(** The run of [main] with console and disk on the reference libraries
    is the run of the first part, file for file. *)
Example complete_run_agrees :
  Io.main empty_dir = outcome (main fresh).
Proof.
  apply (main_agrees fresh). by repeat split.
Qed.

End AgreementRuns.
